(** * Water-monitoring pipeline: cleaning, range filter and aggregations

    A shallow embedding of [data_processing.py] (the cleaning stage
    [preprocess_data], the range filter [filter_data] and the hourly, daily,
    weekly and monthly aggregations) and of the update cycle of [main.py],
    followed by the properties of the specification that were checked
    against them.

    Conventions of the embedding:
    - a float64 is the rational it denotes, or NaN ([None]); infinities and
      binary rounding error are not represented;
    - a timestamp is the integer pandas stores: nanoseconds since
      1970-01-01T00:00:00, timezone-naive; NaT is [None];
    - a DataFrame is the list of its rows, in row order;
    - a Python exception is the [Raise] case of [result]; the Python value
      [None] where a DataFrame was expected is the [None] of [option]. *)

From Stdlib Require Import ZArith QArith Qround List String Ascii Bool Lia.
From stdpp Require Import gmap strings.
Import ListNotations.

Local Open Scope string_scope.
Local Open Scope Z_scope.

(** ** Python: exceptions *)

Module Py.

Inductive exn : Type :=
| TypeError      (* subscripting None *)
| KeyError       (* a column the frame does not have *)
| ParserError.   (* dateutil cannot read a date string *)

Inductive result (A : Type) : Type :=
| Ok (a : A)
| Raise (e : exn).
Arguments Ok {A} a.
Arguments Raise {A} e.

Definition bind {A B} (r : result A) (k : A -> result B) : result B :=
  match r with
  | Ok a => k a
  | Raise e => Raise e
  end.

(** [try: body  except Exception: handler] *)
Definition try_except {A} (body : result A) (handler : exn -> A) : A :=
  match body with
  | Ok a => a
  | Raise e => handler e
  end.

(** [x[...]] where [x] may be [None]: ['NoneType' object is not
    subscriptable]. *)
Definition subscript {A} (x : option A) : result A :=
  match x with
  | Some a => Ok a
  | None => Raise TypeError
  end.

Definition raises {A} (r : result A) : Prop := exists e, r = Raise e.

End Py.
Import Py.

#[global] Instance result_bind : MBind Py.result := fun A B k r => Py.bind r k.

(** ** pandas: series of floats, timestamps, resampling *)

Module pd.

(** A float64 cell; [None] is NaN. *)
Abbreviation float64 := (option Q).

(** A datetime64[ns] cell that is not NaT. *)
Abbreviation datetime := Z.

Abbreviation Series := (list float64).

(** [Series.ffill()]: a NaN takes the last valid value before it. *)
Fixpoint ffill_from (last : float64) (s : Series) : Series :=
  match s with
  | [] => []
  | Some q :: s' => Some q :: ffill_from (Some q) s'
  | None :: s' => last :: ffill_from last s'
  end.

Definition ffill (s : Series) : Series := ffill_from None s.

(** [Series.bfill()]: a NaN takes the next valid value after it. *)
Fixpoint bfill (s : Series) : Series :=
  match s with
  | [] => []
  | Some q :: s' => Some q :: bfill s'
  | None :: s' => let t := bfill s' in hd None t :: t
  end.

(** [Series.fillna(v)] *)
Definition fillna (v : Q) (s : Series) : Series :=
  map (fun x => match x with Some q => Some q | None => Some v end) s.

(** Round to the nearest integer, ties to even (numpy's [rint]). *)
Definition rint (q : Q) : Z :=
  let f := Qfloor q in
  match Qcompare (q - inject_Z f) (1 # 2) with
  | Lt => f
  | Gt => f + 1
  | Eq => if Z.even f then f else f + 1
  end.

Definition pow10 (decimals : nat) : Q := inject_Z (10 ^ Z.of_nat decimals).

Definition round_Q (decimals : nat) (q : Q) : Q :=
  Qred (inject_Z (rint (q * pow10 decimals)) / pow10 decimals).

(** [Series.round(decimals)]; NaN stays NaN. *)
Definition round (decimals : nat) (s : Series) : Series :=
  map (option_map (round_Q decimals)) s.

(** Comparisons of a cell with a constant; every comparison with NaN is
    false, except [!=]. *)
Definition lt (x : float64) (c : Q) : bool :=
  match x with Some q => negb (Qle_bool c q) | None => false end.
Definition gt (x : float64) (c : Q) : bool :=
  match x with Some q => negb (Qle_bool q c) | None => false end.
Definition ne (x : float64) (c : Q) : bool :=
  match x with Some q => negb (Qeq_bool q c) | None => true end.

(** The valid values of a series (reducers skip NaN). *)
Fixpoint valid (s : Series) : list Q :=
  match s with
  | [] => []
  | Some q :: s' => q :: valid s'
  | None :: s' => valid s'
  end.

Definition total (l : list Q) : Q := fold_right Qplus 0%Q l.

(** The reducer ['sum']: 0 over no valid value. *)
Definition sum (s : Series) : float64 := Some (Qred (total (valid s))).

(** The reducer ['mean']: NaN over no valid value. *)
Definition mean (s : Series) : float64 :=
  match valid s with
  | [] => None
  | v :: vs => Some (Qred (total (v :: vs) / inject_Z (Z.of_nat (length (v :: vs)))))
  end.

(** *** Calendar *)

Definition ns_per_second : Z := 1000000000.
Definition ns_per_hour : Z := 3600 * ns_per_second.
Definition ns_per_day : Z := 86400 * ns_per_second.

(** [Timestamp.date()], as the number of days since 1970-01-01. *)
Definition date (t : datetime) : Z := t / ns_per_day.

(** Proleptic Gregorian calendar: day number to (year, month, day). *)
Definition civil_from_days (days : Z) : Z * Z * Z :=
  let z := days + 719468 in
  let era := z / 146097 in
  let doe := z - era * 146097 in
  let yoe := (doe - doe / 1460 + doe / 36524 - doe / 146096) / 365 in
  let doy := doe - (365 * yoe + yoe / 4 - yoe / 100) in
  let mp := (5 * doy + 2) / 153 in
  let d := doy - (153 * mp + 2) / 5 + 1 in
  let m := if mp <? 10 then mp + 3 else mp - 9 in
  ((if m <=? 2 then yoe + era * 400 + 1 else yoe + era * 400), m, d).

Definition days_from_civil (y m d : Z) : Z :=
  let y := if m <=? 2 then y - 1 else y in
  let era := y / 400 in
  let yoe := y - era * 400 in
  let doy := (153 * (if 2 <? m then m - 3 else m + 9) + 2) / 5 + d - 1 in
  let doe := yoe * 365 + yoe / 4 - yoe / 100 + doy in
  era * 146097 + doe - 719468.

(** *** Resampling

    A frequency sends an instant to the index of its bin (consecutive
    integers for consecutive bins) and a bin to the timestamp that labels
    it. *)
Record Freq : Type := mkFreq {
  bin : datetime -> Z;
  label : Z -> datetime
}.

(** ['h'] (and the older spelling ['H']): calendar hours, labelled by
    their start. *)
Definition freq_h : Freq :=
  {| bin := fun t => t / ns_per_hour; label := fun i => i * ns_per_hour |}.

(** ['D']: calendar days, labelled by midnight. *)
Definition freq_D : Freq :=
  {| bin := fun t => date t; label := fun i => i * ns_per_day |}.

(** ['W-Mon']: weeks closed and labelled on the right by a Monday; an
    instant belongs to the first Monday on or after its date.  Day 0 is a
    Thursday, day 4 the first Monday. *)
Definition freq_W_Mon : Freq :=
  {| bin := fun t => (date t + 9) / 7;
     label := fun w => (7 * w - 3) * ns_per_day |}.

(** ['ME']: calendar months, labelled by midnight of their last day. *)
Definition freq_ME : Freq :=
  {| bin := fun t => let '(y, m, _) := civil_from_days (date t) in y * 12 + (m - 1);
     label := fun i =>
       (days_from_civil ((i + 1) / 12) ((i + 1) mod 12 + 1) 1 - 1) * ns_per_day |}.

(** The integers from [lo] to [hi], both included. *)
Definition zrange (lo hi : Z) : list Z :=
  map (fun n => lo + Z.of_nat n) (seq 0 (Z.to_nat (hi - lo + 1))).

Definition zmin (k : Z) (ks : list Z) : Z := fold_right Z.min k ks.
Definition zmax (k : Z) (ks : list Z) : Z := fold_right Z.max k ks.

(** The bins of [DataFrame.resample(freq)] over rows of type [R] indexed
    by [ts]: every bin from the one of the earliest row to the one of the
    latest row, in ascending order, each with the rows that fall in it
    (possibly none).  An empty frame has no bin. *)
Definition resample {R : Type} (ts : R -> datetime) (f : Freq) (df : list R)
  : list (Z * list R) :=
  match map (fun r => bin f (ts r)) df with
  | [] => []
  | k :: ks =>
      map (fun i => (i, List.filter (fun r => bin f (ts r) =? i) df))
          (zrange (zmin k ks) (zmax k ks))
  end.

End pd.
Import pd.

(** ** Library parsers on well-formed text

    pandas' [to_datetime] and [to_numeric] and dateutil's [parser.parse] are
    parameters of the embedding of [data_processing.py] below.  The parsers
    of this module read zero-padded fields and plain decimal numbers only;
    they serve to run the embedding on concrete records. *)

Module strict.

Definition digit (c : ascii) : option Z :=
  let n := Z.of_nat (nat_of_ascii c) in
  if (48 <=? n) && (n <=? 57) then Some (n - 48) else None.

(** Exactly [n] digits. *)
Fixpoint digits (n : nat) (acc : Z) (s : string) : option (Z * string) :=
  match n with
  | O => Some (acc, s)
  | S n' =>
      match s with
      | String c s' => d ← digit c; digits n' (10 * acc + d) s'
      | EmptyString => None
      end
  end.

Definition month_names : list (string * Z) :=
  [("Jan", 1); ("Feb", 2); ("Mar", 3); ("Apr", 4); ("May", 5); ("Jun", 6);
   ("Jul", 7); ("Aug", 8); ("Sep", 9); ("Oct", 10); ("Nov", 11); ("Dec", 12)].

Definition month_abbr (s : string) : option (Z * string) :=
  match s with
  | String a (String b (String c s')) =>
      let name := String a (String b (String c EmptyString)) in
      m ← List.find (fun p => String.eqb (fst p) name) month_names;
      Some (snd m, s')
  | _ => None
  end.

Record fields : Type := mkFields {
  f_year : Z; f_month : Z; f_day : Z; f_hour : Z; f_minute : Z; f_second : Z
}.

Definition directive (c : ascii) (acc : fields) (s : string)
  : option (fields * string) :=
  let set (n : nat) (upd : Z -> fields) :=
    p ← digits n 0 s; Some (upd (fst p), snd p) in
  if Ascii.eqb c "Y" then
    set 4%nat (fun v => mkFields v (f_month acc) (f_day acc) (f_hour acc) (f_minute acc) (f_second acc))
  else if Ascii.eqb c "m" then
    set 2%nat (fun v => mkFields (f_year acc) v (f_day acc) (f_hour acc) (f_minute acc) (f_second acc))
  else if Ascii.eqb c "b" then
    (p ← month_abbr s;
     Some (mkFields (f_year acc) (fst p) (f_day acc) (f_hour acc) (f_minute acc) (f_second acc), snd p))
  else if Ascii.eqb c "d" then
    set 2%nat (fun v => mkFields (f_year acc) (f_month acc) v (f_hour acc) (f_minute acc) (f_second acc))
  else if Ascii.eqb c "H" then
    set 2%nat (fun v => mkFields (f_year acc) (f_month acc) (f_day acc) v (f_minute acc) (f_second acc))
  else if Ascii.eqb c "M" then
    set 2%nat (fun v => mkFields (f_year acc) (f_month acc) (f_day acc) (f_hour acc) v (f_second acc))
  else if Ascii.eqb c "S" then
    set 2%nat (fun v => mkFields (f_year acc) (f_month acc) (f_day acc) (f_hour acc) (f_minute acc) v)
  else None.

Fixpoint parse_fmt (fmt : string) (s : string) (acc : fields) : option fields :=
  match fmt with
  | EmptyString => match s with EmptyString => Some acc | _ => None end
  | String c fmt' =>
      if Ascii.eqb c "%" then
        match fmt' with
        | String d fmt'' =>
            match directive d acc s with
            | Some p => parse_fmt fmt'' (snd p) (fst p)
            | None => None
            end
        | EmptyString => None
        end
      else
        match s with
        | String c' s' => if Ascii.eqb c c' then parse_fmt fmt' s' acc else None
        | EmptyString => None
        end
  end.

Definition days_in_month (y m : Z) : Z :=
  days_from_civil ((y * 12 + m) / 12) ((y * 12 + m) mod 12 + 1) 1
  - days_from_civil y m 1.

Definition strptime (fmt s : string) : option datetime :=
  f ← parse_fmt fmt s (mkFields 1900 1 1 0 0 0);
  if (1 <=? f_month f) && (f_month f <=? 12)
     && (1 <=? f_day f) && (f_day f <=? days_in_month (f_year f) (f_month f))
     && (f_hour f <? 24) && (f_minute f <? 60) && (f_second f <? 60)
  then Some ((((days_from_civil (f_year f) (f_month f) (f_day f) * 24
               + f_hour f) * 60 + f_minute f) * 60 + f_second f)
             * ns_per_second)
  else None.

(** As many digits as there are: their value, their number, the rest. *)
Fixpoint read_digits (s : string) (acc : Z) (count : nat) : Z * nat * string :=
  match s with
  | String c s' =>
      match digit c with
      | Some d => read_digits s' (10 * acc + d) (S count)
      | None => (acc, count, s)
      end
  | EmptyString => (acc, count, s)
  end.

Definition unsigned_decimal (s : string) : option Q :=
  let '(i, n, rest) := read_digits s 0 0 in
  match n, rest with
  | O, _ => None
  | _, EmptyString => Some (inject_Z i)
  | _, String c rest' =>
      if Ascii.eqb c "." then
        let '(f, k, rest'') := read_digits rest' 0 0 in
        match k, rest'' with
        | S _, EmptyString =>
            Some (Qred (Qmake (i * 10 ^ Z.of_nat k + f) (Z.to_pos (10 ^ Z.of_nat k))))
        | _, _ => None
        end
      else None
  end.

Definition str_to_float (s : string) : float64 :=
  match s with
  | String c s' =>
      if Ascii.eqb c "-" then option_map Qopp (unsigned_decimal s')
      else unsigned_decimal s
  | EmptyString => None
  end.

End strict.

(** ** Frames of sensor readings *)

(** A value of a raw record, as decoded from the JSON of the API. *)
Inductive raw_value : Type :=
| RNum (q : Q)
| RStr (s : string)
| RNull.

(** A raw record is a dict from column names to values; what the API call
    returns is a list of them, or nothing ([None]). *)
Abbreviation RawRecord := (gmap string raw_value).
Abbreviation api_response := (option (list (gmap string raw_value))).

(** A row of a frame with the five columns of the program.  After cleaning
    the TDS column holds nullable integers (Int64); they are kept as the
    rationals they are. *)
Record Row : Type := mkRow {
  timestamp : datetime;
  FlowInd : float64;
  TDS : float64;
  pH : float64;
  Depth : float64
}.

Abbreviation DataFrame := (list Row).

Inductive Column : Type := cFlowInd | cTDS | cpH | cDepth.

Definition name (c : Column) : string :=
  match c with
  | cFlowInd => "FlowInd" | cTDS => "TDS" | cpH => "pH" | cDepth => "Depth"
  end.

Definition get (c : Column) (r : Row) : float64 :=
  match c with
  | cFlowInd => FlowInd r | cTDS => TDS r | cpH => pH r | cDepth => Depth r
  end.

Definition set (c : Column) (v : float64) (r : Row) : Row :=
  match c with
  | cFlowInd => mkRow (timestamp r) v (TDS r) (pH r) (Depth r)
  | cTDS => mkRow (timestamp r) (FlowInd r) v (pH r) (Depth r)
  | cpH => mkRow (timestamp r) (FlowInd r) (TDS r) v (Depth r)
  | cDepth => mkRow (timestamp r) (FlowInd r) (TDS r) (pH r) v
  end.

(** [df[c]] *)
Definition series (c : Column) (df : DataFrame) : Series := map (get c) df.

(** [df[c] = s], for a series as long as the frame *)
Definition assign (c : Column) (s : Series) (df : DataFrame) : DataFrame :=
  map (fun p => set c (snd p) (fst p)) (combine df s).

(** [df.loc[mask, c] = v] *)
Definition loc_assign (mask : Row -> bool) (c : Column) (v : Q) (df : DataFrame)
  : DataFrame :=
  map (fun r => if mask r then set c (Some v) r else r) df.

(** [df.empty] *)
Definition empty (df : DataFrame) : bool :=
  match df with [] => true | _ :: _ => false end.

(** [df.round(decimals)] on the four numeric columns *)
Definition round_frame (decimals : nat) (df : DataFrame) : DataFrame :=
  map (fun r => mkRow (timestamp r)
                      (option_map (round_Q decimals) (FlowInd r))
                      (option_map (round_Q decimals) (TDS r))
                      (option_map (round_Q decimals) (pH r))
                      (option_map (round_Q decimals) (Depth r))) df.

(** [df.set_index('timestamp').resample(f).agg({...}).reset_index()] with
    one reducer per numeric column: one row per bin. *)
Definition resample_agg (f : Freq) (rFlowInd rDepth rTDS rpH : Series -> float64)
  (df : DataFrame) : DataFrame :=
  map (fun b => mkRow (label f (fst b))
                      (rFlowInd (series cFlowInd (snd b)))
                      (rTDS (series cTDS (snd b)))
                      (rpH (series cpH (snd b)))
                      (rDepth (series cDepth (snd b))))
      (resample timestamp f df).

(** The same with two columns only: rows (timestamp, first, second). *)
Definition resample_agg2 (f : Freq) (c1 c2 : Column) (r1 r2 : Series -> float64)
  (df : DataFrame) : list (datetime * (float64 * float64)) :=
  map (fun b => (label f (fst b), (r1 (series c1 (snd b)), r2 (series c2 (snd b)))))
      (resample timestamp f df).

(** [water.merge(tds_ph, how='inner', on='timestamp')]: the pairs of rows
    with equal timestamps, in the order of the left frame. *)
Definition merge_inner (water tds_ph : list (datetime * (float64 * float64)))
  : DataFrame :=
  flat_map (fun l =>
    map (fun r => mkRow (fst l) (fst (snd l)) (fst (snd r)) (snd (snd r)) (snd (snd l)))
        (List.filter (fun r => fst r =? fst l) tds_ph)) water.

(** [df['timestamp'].max()]; NaT on an empty frame. *)
Definition timestamp_max (df : DataFrame) : option datetime :=
  match map timestamp df with
  | [] => None
  | t :: ts => Some (zmax t ts)
  end.

Definition default_date_format : string := "%d-%b-%Y %H:%M:%S".

(** ** The pipeline on the parsers of [strict] *)

Definition to_datetime_strict (fmt : string) (v : raw_value) : option datetime :=
  match v with
  | RStr s => strict.strptime fmt s
  | _ => None
  end.

Definition parser_parse_strict (s : string) : result datetime :=
  match strict.strptime "%Y-%m-%d" s with
  | Some t => Ok t
  | None => Raise ParserError
  end.

Definition record (ts : string) (flow tds ph depth : raw_value) : RawRecord :=
  <["timestamp" := RStr ts]> (<["FlowInd" := flow]> (<["TDS" := tds]>
    (<["pH" := ph]> (<["Depth" := depth]> ∅)))).

(** Three readings within the hour from 10:00 on 1 January 2024, with TDS
    0, 10 and 20. *)
Definition sample_hour : api_response :=
  Some [ record "01-Jan-2024 10:05:00" (RNum 1) (RNum 0) (RNum 7) (RNum 1);
         record "01-Jan-2024 10:15:00" (RNum 2) (RNum 10) (RNum 7) (RNum 1);
         record "01-Jan-2024 10:45:00" (RNum 4) (RNum 20) (RNum 7) (RNum 2) ].

(** Two readings in the week that ends on Monday 8 January 2024, one of them
    with TDS 0. *)
Definition sample_week : api_response :=
  Some [ record "03-Jan-2024 09:00:00" (RNum 1) (RNum 0) (RNum 7) (RNum 1);
         record "04-Jan-2024 09:00:00" (RNum 2) (RNum 10) (RNum 7) (RNum 1) ].

(** Readings on three consecutive days; the only reading of the second day
    has TDS 0. *)
Definition sample_days : api_response :=
  Some [ record "01-Jan-2024 08:00:00" (RNum 1) (RNum 10) (RNum 7) (RNum (1 # 100));
         record "01-Jan-2024 09:00:00" (RNum 1) (RNum 11) (RNum 7) (RNum (2 # 100));
         record "02-Jan-2024 08:00:00" (RNum 2) (RNum 0) (RNum 7) (RNum 1);
         record "03-Jan-2024 08:00:00" (RNum 3) (RNum 31) (RNum 7) (RNum 1) ].

(** Five readings whose TDS column is NaN, NaN, 5, NaN, 8; the fourth has
    pH 20, the fifth pH -5 and depth -3. *)
Definition gaps_records : list RawRecord :=
  [ record "01-Jan-2024 08:00:00" (RNum 1) RNull (RNum 7) (RNum 1);
    record "01-Jan-2024 09:00:00" (RNum 1) (RStr "n/a") (RNum 7) (RNum 1);
    record "01-Jan-2024 10:00:00" (RNum 1) (RNum 5) (RNum 7) (RNum 1);
    record "01-Jan-2024 11:00:00" (RNum 1) RNull (RNum 20) (RNum 1);
    record "01-Jan-2024 12:00:00" (RNum 1) (RStr "8") (RNum (-5)) (RNum (-3)) ].

(** The last two readings of [gaps_records] after a reading whose timestamp
    is not in the default format. *)
Definition bad_timestamp_records : list RawRecord :=
  [ record "2024-01-01 08:00" (RNum 1) (RNum 3) (RNum 7) (RNum 1);
    record "01-Jan-2024 11:00:00" (RNum 1) RNull (RNum 20) (RNum 1);
    record "01-Jan-2024 12:00:00" (RNum 1) (RStr "8") (RNum (-5)) (RNum (-3)) ].

(** ** get_data.py: the API client

    The server is what it answers to each request, numbered from 0 in the
    order the requests are made: a response with its status code and its
    decoded JSON body, or a failure of the request (a
    [requests.exceptions.RequestException]: no connection, timeout).  The
    client's own state is the number of requests made and the seconds
    slept.  A response carries its body already decoded: a body that is not
    JSON, or a token reply that is not a JSON object, is outside the model. *)

Module get_data.

Inductive token_reply : Type :=
| TokenResponse (status_code : Z) (token : option string)
    (* [token] is [response.json().get("token")] *)
| TokenFailure.

Inductive data_reply : Type :=
| DataResponse (status_code : Z) (body : api_response)
| DataFailure.

Record Server : Type := mkServer {
  post_get_token : nat -> token_reply;
  get_nallampatti_data : nat -> string -> data_reply
    (* the request number and the bearer token *)
}.

Record Net : Type := mkNet {
  posts : nat;
  gets : nat;
  slept : Z
}.

Definition start : Net := mkNet 0 0 0.

Definition sleep (seconds : Z) (net : Net) : Net :=
  mkNet (posts net) (gets net) (slept net + seconds).

Definition max_retries : nat := 3.
Definition retry_delay : Z := 5.

Definition generate_token (server : Server) (net : Net) : option string * Net :=
  let net' := mkNet (S (posts net)) (gets net) (slept net) in
  match post_get_token server (posts net) with
  | TokenResponse status_code token =>
      if status_code =? 200 then (token, net') else (None, net')
  | TokenFailure => (None, net')
  end.

(** [not token] *)
Definition falsy (token : option string) : bool :=
  match token with
  | None => true
  | Some s => String.eqb s ""
  end.

(** The turns of [for attempt in range(max_retries)] that are left, and the
    [return None] after the loop. *)
Fixpoint attempts (server : Server) (todo : list nat) (net : Net)
  : api_response * Net :=
  match todo with
  | [] => (None, net)
  | attempt :: rest =>
      let (token, net) := generate_token server net in
      match token with
      | Some bearer =>
          if falsy token then (None, net)
          else
            let net' := mkNet (posts net) (S (gets net)) (slept net) in
            match get_nallampatti_data server (gets net) bearer with
            | DataResponse status_code body =>
                if status_code =? 200 then (body, net')
                else if status_code =? 401 then
                  attempts server rest (sleep retry_delay net')
                else (None, net')
            | DataFailure =>
                if (attempt <? max_retries - 1)%nat
                then attempts server rest (sleep retry_delay net')
                else (None, net')
            end
      | None => (None, net)
      end
  end.

Definition fetch_data_from_api (server : Server) (net : Net) : api_response * Net :=
  attempts server (seq 0 max_retries) net.

(** The attempt [k] is one that the loop repeats: a usable token, then a
    401 or a failed request. *)
Definition retried (server : Server) (k : nat) : Prop :=
  exists bearer,
    post_get_token server k = TokenResponse 200 (Some bearer)
    /\ bearer <> ""
    /\ (get_nallampatti_data server k bearer = DataFailure
        \/ exists body, get_nallampatti_data server k bearer = DataResponse 401 body).

End get_data.

(** Three servers: one that answers 401 to the first data request and 200
    with a list of one record, without any key, to the second; one that
    cannot be reached; one that hands out tokens and answers 401 to every
    data request. *)
Definition server_second_try : get_data.Server :=
  get_data.mkServer
    (fun k => get_data.TokenResponse 200 (Some (if Nat.eqb k 0 then "t0" else "t1")))
    (fun k bearer =>
       if Nat.eqb k 0 then get_data.DataResponse 401 None
       else get_data.DataResponse 200 (Some [∅])).

Definition server_down : get_data.Server :=
  get_data.mkServer (fun _ => get_data.TokenFailure) (fun _ _ => get_data.DataFailure).

Definition server_unauthorized : get_data.Server :=
  get_data.mkServer
    (fun _ => get_data.TokenResponse 200 (Some "t"))
    (fun _ _ => get_data.DataResponse 401 None).

(** Two readings without a readable pH. *)
Definition no_ph_records : list RawRecord :=
  [ record "01-Jan-2024 08:00:00" (RNum 1) (RNum 5) RNull (RNum 1);
    record "01-Jan-2024 09:00:00" (RNum 1) (RNum 6) (RStr "n/a") (RNum 1) ].

Section Pipeline.

(** The library calls of the program, element-wise:
    [pd.to_datetime(_, format=fmt, errors='coerce')] (NaT is [None]),
    [pd.to_numeric(_, errors='coerce')] on a string (NaN is [None]), and
    dateutil's [parser.parse]. *)
Variable to_datetime : string -> raw_value -> option datetime.
Variable str_to_float : string -> float64.
Variable parser_parse : string -> result datetime.

(** *** data_processing.py *)

Definition to_numeric (v : raw_value) : float64 :=
  match v with
  | RNum q => Some q
  | RStr s => str_to_float s
  | RNull => None
  end.

(** [pd.DataFrame(data)] has a column for every key of some record; a
    record without the key holds a missing value there. *)
Definition has_column (key : string) (data : list RawRecord) : bool :=
  existsb (fun r => match r !! key with Some _ => true | None => false end) data.

Definition cell (key : string) (r : RawRecord) : raw_value :=
  match r !! key with Some v => v | None => RNull end.

(** [df[key]] on the frame of raw records *)
Definition getitem (key : string) (data : list RawRecord) : result (list raw_value) :=
  if has_column key data then Ok (map (cell key) data) else Raise KeyError.

(** [df.dropna(subset=['timestamp'])] after the conversion of the column *)
Fixpoint dropna_timestamp (stamped : list (option datetime * RawRecord))
  : list (datetime * RawRecord) :=
  match stamped with
  | [] => []
  | (Some t, r) :: rest => (t, r) :: dropna_timestamp rest
  | (None, _) :: rest => dropna_timestamp rest
  end.

(** The records whose timestamp is read, with the timestamp. *)
Definition surviving (data : list RawRecord) (date_format : string)
  : list (datetime * RawRecord) :=
  dropna_timestamp
    (combine (map (to_datetime date_format) (map (cell "timestamp") data)) data).

(** The numeric column [c] of the surviving records, before any repair. *)
Definition raw_series (c : Column) (data : list RawRecord) (date_format : string)
  : Series :=
  map (fun p => to_numeric (cell (name c) (snd p))) (surviving data date_format).

(** [c.ffill().bfill().fillna(0)] *)
Definition null_repair (s : Series) : Series := fillna 0 (bfill (ffill s)).

(** Lines 34-64 of [preprocess_data], on the records left by the removal of
    the rows without timestamp: numeric conversion, null repair, rounding
    and range validation. *)
Definition clean (kept : list (datetime * RawRecord)) : DataFrame :=
  let df := map (fun p => mkRow (fst p)
                                (to_numeric (cell "FlowInd" (snd p)))
                                (to_numeric (cell "TDS" (snd p)))
                                (to_numeric (cell "pH" (snd p)))
                                (to_numeric (cell "Depth" (snd p)))) kept in
  let df := assign cTDS (null_repair (series cTDS df)) df in
  let df := assign cpH (null_repair (series cpH df)) df in
  let df := assign cDepth (null_repair (series cDepth df)) df in
  let df := assign cFlowInd (null_repair (series cFlowInd df)) df in
  let df := assign cTDS (round 0 (series cTDS df)) df in
  let df := assign cDepth (round 2 (series cDepth df)) df in
  let df := assign cpH (round 2 (series cpH df)) df in
  let df := assign cFlowInd (round 2 (series cFlowInd df)) df in
  let df := loc_assign (fun r => lt (pH r) 0) cpH 7 df in
  let df := loc_assign (fun r => gt (pH r) 14) cpH 7 df in
  let df := loc_assign (fun r => lt (TDS r) 0) cTDS 0 df in
  let df := loc_assign (fun r => lt (Depth r) 0) cDepth 0 df in
  let df := loc_assign (fun r => lt (FlowInd r) 0) cFlowInd 0 df in
  df.

(** The body of the [try] of [preprocess_data]: nothing without data; a
    KeyError when the frame of the records lacks one of the five columns. *)
Definition preprocess_data_body (data : api_response) (date_format : string)
  : result (option DataFrame) :=
  match data with
  | None | Some [] => Ok None
  | Some data =>
      _ ← getitem "timestamp" data;
      let kept := surviving data date_format in
      if forallb (fun c => has_column (name c) data) [cFlowInd; cTDS; cpH; cDepth]
      then Ok (Some (clean kept))
      else Raise KeyError
  end.

(** [preprocess_data(date_format)], on what the API call inside returns:
    the cleaned frame, or [None]. *)
Definition preprocess_data (data : api_response) (date_format : string)
  : option DataFrame :=
  try_except (preprocess_data_body data date_format) (fun _ => None).

(** The first definition of [filter_data_hourly] (lines 79-106), which the
    definition of the same name at the end of the module replaces. *)
Definition filter_data_hourly_shadowed (data : api_response) : option DataFrame :=
  try_except
    (match preprocess_data data default_date_format with
     | None => Ok None
     | Some df =>
         if empty df then Ok None
         else
           let df := List.filter (fun r => gt (TDS r) 0 && gt (pH r) 0) df in
           Ok (Some (round_frame 2 (resample_agg freq_h mean mean mean mean df)))
     end)
    (fun _ => None).

(** [(ts.dt.date >= from_date.date()) & (ts.dt.date <= to_date.date())] *)
Definition in_range (from_date to_date : datetime) (r : Row) : bool :=
  (date from_date <=? date (timestamp r)) && (date (timestamp r) <=? date to_date).

Definition nonzero (c : Column) (r : Row) : bool := ne (get c r) 0.

Definition filter_data (data : api_response) (from_date to_date : string)
  : result DataFrame :=
  let df := preprocess_data data default_date_format in
  from_date ← parser_parse from_date;
  to_date ← parser_parse to_date;
  df ← subscript df;
  Ok (List.filter (in_range from_date to_date) df).

(** The rows of [filter_data_daily] behind the TDS and pH means. *)
Definition daily_tds_ph_rows (df : DataFrame) (from_date to_date : datetime)
  : DataFrame :=
  let df := List.filter (in_range from_date to_date) df in
  let df := List.filter (nonzero cTDS) df in
  List.filter (nonzero cpH) df.

Definition filter_data_daily (data : api_response) (from_date to_date : string)
  : result DataFrame :=
  let df := preprocess_data data default_date_format in
  from_date ← parser_parse from_date;
  to_date ← parser_parse to_date;
  df ← subscript df;
  let water_data :=
    resample_agg2 freq_D cFlowInd cDepth mean mean
      (List.filter (in_range from_date to_date) df) in
  let tds_ph_data :=
    resample_agg2 freq_D cTDS cpH mean mean
      (daily_tds_ph_rows df from_date to_date) in
  Ok (merge_inner water_data tds_ph_data).

Definition filter_data_weekly (data : api_response) (from_date to_date : string)
  : result DataFrame :=
  let df := preprocess_data data default_date_format in
  from_date ← parser_parse from_date;
  to_date ← parser_parse to_date;
  df ← subscript df;
  let df := List.filter (in_range from_date to_date) df in
  Ok (resample_agg freq_W_Mon sum sum mean mean df).

(** The rows that [filter_data_monthly] resamples. *)
Definition monthly_rows (df : DataFrame) (from_date to_date : datetime)
  : DataFrame :=
  let df := List.filter (nonzero cTDS) df in
  let df := List.filter (nonzero cpH) df in
  List.filter (in_range from_date to_date) df.

Definition filter_data_monthly (data : api_response) (from_date to_date : string)
  : result DataFrame :=
  let df := preprocess_data data default_date_format in
  from_date ← parser_parse from_date;
  to_date ← parser_parse to_date;
  df ← subscript df;
  Ok (resample_agg freq_ME sum sum mean mean (monthly_rows df from_date to_date)).

(** The rows that [filter_data_hourly] resamples. *)
Definition hourly_rows (df : DataFrame) : DataFrame :=
  List.filter (nonzero cpH) (List.filter (nonzero cTDS) df).

(** The definition of [filter_data_hourly] in force (lines 150-155). *)
Definition filter_data_hourly (data : api_response) : result DataFrame :=
  let df := preprocess_data data default_date_format in
  df ← subscript df;
  Ok (resample_agg freq_h sum sum mean mean (hourly_rows df)).

(** *** main.py *)

Record State : Type := mkState {
  df : DataFrame;
  last_update_time : option datetime;
  data_fetch_error : option string
}.

(** The module starts with an empty frame and no update. *)
Definition initial_state : State := mkState [] None None.

(** The frames of this embedding always have the five required columns. *)
Definition verify_data_quality (new_df : option DataFrame) : bool * string :=
  match new_df with
  | None => (false, "No data received")
  | Some d => if empty d then (false, "No data received") else (true, "Data verified")
  end.

(** [fetch_latest_data()], on what its two API calls return: its own, and
    the one inside [preprocess_data]. *)
Definition fetch_latest_data (raw_data data : api_response) : option DataFrame :=
  try_except
    (match raw_data with
     | None | Some [] => Ok None
     | Some _ =>
         new_df ← filter_data_hourly data;
         if fst (verify_data_quality (Some new_df)) then Ok (Some new_df) else Ok None
     end)
    (fun _ => None).

(** [a > b] on timestamps that may be NaT *)
Definition later (a b : option datetime) : bool :=
  match a, b with
  | Some x, Some y => y <? x
  | _, _ => false
  end.

(** One turn of the loop of [update_data], at time [now]. *)
Definition update_cycle (now : datetime) (raw_data data : api_response) (st : State)
  : State :=
  match fetch_latest_data raw_data data with
  | Some new_df =>
      if negb (empty new_df) then
        if empty (df st) || later (timestamp_max new_df) (timestamp_max (df st))
        then mkState new_df (Some now) None
        else st
      else mkState (df st) (last_update_time st) (Some "Failed to fetch new data")
  | None => mkState (df st) (last_update_time st) (Some "Failed to fetch new data")
  end.

(** The loop of [update_data] never ends; its first turns, one for each
    element of [turns]: the time of the turn and what the two API calls of
    the turn return. *)
Fixpoint update_data (turns : list (datetime * api_response * api_response))
  (st : State) : State :=
  match turns with
  | [] => st
  | (now, raw_data, data) :: rest => update_data rest (update_cycle now raw_data data st)
  end.






(** *** The cleaning of one column, for the statements below *)

(** The number of decimals kept by lines 54-57. *)
Definition decimals (c : Column) : nat :=
  match c with cTDS => 0%nat | _ => 2%nat end.

(** The range validation of lines 60-64 on one cell. *)
Definition clamp (c : Column) (x : float64) : float64 :=
  match c with
  | cpH =>
      let x := if lt x 0 then Some 7%Q else x in
      if gt x 14 then Some 7%Q else x
  | _ => if lt x 0 then Some 0%Q else x
  end.

(** The frame [d] has the timestamps [ts] and the four numeric columns
    given. *)
Definition columns_are (d : DataFrame) (ts : list datetime)
  (flow tds ph depth : Series) : Prop :=
  map timestamp d = ts
  /\ series cFlowInd d = flow /\ series cTDS d = tds
  /\ series cpH d = ph /\ series cDepth d = depth.

Definition same_column (c c' : Column) : bool :=
  match c, c' with
  | cFlowInd, cFlowInd | cTDS, cTDS | cpH, cpH | cDepth, cDepth => true
  | _, _ => false
  end.

(** [g] on the column [c], nothing on another column. *)
Definition on_column (c c' : Column) (g : Series -> Series) (s : Series) : Series :=
  if same_column c c' then g s else s.

(** *** Bins, for the statements below *)

(** The rows of [df] in the bin [i] of the frequency [f]. *)
Definition bucket (f : Freq) (i : Z) (df : DataFrame) : DataFrame :=
  List.filter (fun r => bin f (timestamp r) =? i) df.

(** The bin [i] lies between the bins of two rows of [df]. *)
Definition spans (f : Freq) (df : DataFrame) (i : Z) : Prop :=
  exists r1 r2,
    In r1 df /\ In r2 df
    /\ bin f (timestamp r1) <= i /\ i <= bin f (timestamp r2).

(** The numeric values of [row] are the results of the four reducers, those
    of FlowInd and Depth over [flow_rows], those of TDS and pH over
    [tds_rows]. *)
Definition reduced_by (rFlowInd rDepth rTDS rpH : Series -> float64)
  (flow_rows tds_rows : DataFrame) (row : Row) : Prop :=
  FlowInd row = rFlowInd (series cFlowInd flow_rows)
  /\ Depth row = rDepth (series cDepth flow_rows)
  /\ TDS row = rTDS (series cTDS tds_rows)
  /\ pH row = rpH (series cpH tds_rows).

(** *** Orders on timestamps that may be NaT, for the statements below *)

(** [b] is a timestamp and [a] a strictly later one. *)
Definition strictly_later (a b : option datetime) : Prop :=
  match a, b with
  | Some x, Some y => y < x
  | _, _ => False
  end.

(** If [a] is a timestamp, [b] is one too and is not earlier. *)
Definition not_earlier (a b : option datetime) : Prop :=
  match a, b with
  | Some x, Some y => x <= y
  | Some _, None => False
  | None, _ => True
  end.

(** ** Properties *)

(** *** Columns of a frame *)

Lemma length_series (c : Column) (d : DataFrame) : length (series c d) = length d.
Proof. apply length_map. Qed.

Lemma get_set_same (c : Column) (v : float64) (r : Row) : get c (set c v r) = v.
Proof. destruct c; reflexivity. Qed.

Lemma get_set_other (c c' : Column) (v : float64) (r : Row) :
  c <> c' -> get c' (set c v r) = get c' r.
Proof. destruct c, c'; intros H; try reflexivity; congruence. Qed.

Lemma timestamp_set (c : Column) (v : float64) (r : Row) :
  timestamp (set c v r) = timestamp r.
Proof. destruct c; reflexivity. Qed.

Lemma series_assign_same (c : Column) (s : Series) (d : DataFrame) :
  length s = length d -> series c (assign c s d) = s.
Proof.
  revert s. induction d as [|r d IH]; intros [|x s] H; try discriminate; [reflexivity|].
  cbn in *. rewrite get_set_same. f_equal. apply IH. lia.
Qed.

Lemma series_assign_other (c c' : Column) (s : Series) (d : DataFrame) :
  c <> c' -> length s = length d -> series c' (assign c s d) = series c' d.
Proof.
  intros Hc. revert s. induction d as [|r d IH]; intros [|x s] H; try discriminate;
    [reflexivity|].
  cbn in *. rewrite get_set_other by assumption. f_equal. apply IH. lia.
Qed.

Lemma timestamps_assign (c : Column) (s : Series) (d : DataFrame) :
  length s = length d -> map timestamp (assign c s d) = map timestamp d.
Proof.
  revert s. induction d as [|r d IH]; intros [|x s] H; try discriminate; [reflexivity|].
  cbn in *. rewrite timestamp_set. f_equal. apply IH. lia.
Qed.

Lemma series_loc_assign_other (c c' : Column) (mask : Row -> bool) (v : Q) (d : DataFrame) :
  c <> c' -> series c' (loc_assign mask c v d) = series c' d.
Proof.
  intros Hc. unfold series, loc_assign. rewrite map_map. apply map_ext. intros r.
  destruct (mask r); [apply get_set_other; assumption|reflexivity].
Qed.

Lemma timestamps_loc_assign (mask : Row -> bool) (c : Column) (v : Q) (d : DataFrame) :
  map timestamp (loc_assign mask c v d) = map timestamp d.
Proof.
  unfold loc_assign. rewrite map_map. apply map_ext. intros r.
  destruct (mask r); [apply timestamp_set|reflexivity].
Qed.

Lemma lookup_map {A B : Type} (f : A -> B) (l : list A) (i : nat) :
  map f l !! i = option_map f (l !! i).
Proof.
  revert i. induction l as [|a l IH]; intros [|i]; cbn; try reflexivity. apply IH.
Qed.

(** *** Null repair *)

Lemma length_ffill_from (last : float64) (s : Series) :
  length (ffill_from last s) = length s.
Proof.
  revert last. induction s as [|[q|] s IH]; intros last; cbn; [reflexivity| |];
    rewrite IH; reflexivity.
Qed.

Lemma length_bfill (s : Series) : length (bfill s) = length s.
Proof. induction s as [|[q|] s IH]; cbn; [reflexivity| |]; rewrite IH; reflexivity. Qed.

Lemma length_null_repair (s : Series) : length (null_repair s) = length s.
Proof.
  unfold null_repair, fillna, ffill.
  rewrite length_map, length_bfill, length_ffill_from. reflexivity.
Qed.

Lemma length_round (n : nat) (s : Series) : length (round n s) = length s.
Proof. apply length_map. Qed.

Lemma ffill_from_keeps (last : float64) (s : Series) (i : nat) (q : Q) :
  s !! i = Some (Some q) -> ffill_from last s !! i = Some (Some q).
Proof.
  revert last i. induction s as [|[x|] s IH]; intros last [|i] H; cbn in *;
    try discriminate; try assumption; apply IH; assumption.
Qed.

Lemma bfill_keeps (s : Series) (i : nat) (q : Q) :
  s !! i = Some (Some q) -> bfill s !! i = Some (Some q).
Proof.
  revert i. induction s as [|[x|] s IH]; intros [|i] H; cbn in *;
    try discriminate; try assumption; apply IH; assumption.
Qed.

(** Null repair leaves a valid value where it is. *)
Lemma null_repair_keeps (s : Series) (i : nat) (q : Q) :
  s !! i = Some (Some q) -> null_repair s !! i = Some (Some q).
Proof.
  intros H. unfold null_repair, fillna, ffill.
  rewrite lookup_map, (bfill_keeps _ i q); [reflexivity|].
  apply ffill_from_keeps. assumption.
Qed.

(** Null repair leaves no missing value. *)
Lemma null_repair_valid (s : Series) (i : nat) (x : float64) :
  null_repair s !! i = Some x -> exists q, x = Some q.
Proof.
  unfold null_repair, fillna. rewrite lookup_map.
  destruct (_ !! i) as [[q|]|]; cbn; intros H; inversion H; subst; eauto.
Qed.

(** *** Failure of the cleaning stage *)

(** C2 (the code departs from the claim): whenever the cleaning stage has
    failed and returned None, the range filter [filter_data] does not return
    a null or empty result: it raises.  With two readable dates the
    exception is the TypeError of subscripting None. *)
Theorem filter_data_raises_after_failed_cleaning
  (data : api_response) (from_date to_date : string) :
  preprocess_data data default_date_format = None ->
  raises (filter_data data from_date to_date)
  /\ (forall f t, parser_parse from_date = Ok f -> parser_parse to_date = Ok t ->
      filter_data data from_date to_date = Raise TypeError).
Proof.
  intros Hnone. unfold filter_data, raises. rewrite Hnone. split.
  - destruct (parser_parse from_date) as [f|e]; cbn; [|eauto].
    destruct (parser_parse to_date) as [t|e]; cbn; eauto.
  - intros f t -> ->. reflexivity.
Qed.

(** *** The two row filters *)

Lemma filter_swap {A : Type} (p q : A -> bool) (l : list A) :
  List.filter p (List.filter q l) = List.filter q (List.filter p l).
Proof.
  induction l as [|a l IH]; [reflexivity|]. cbn.
  destruct (q a) eqn:Hq, (p a) eqn:Hp; cbn; rewrite ?Hq, ?Hp, IH; reflexivity.
Qed.

(** C10: on every frame and for every pair of dates, filtering out the rows
    with TDS = 0 and those with pH = 0 and then filtering by date range (the
    order of [filter_data_monthly]) keeps the same rows, in the same order,
    as filtering by date range first (the order of [filter_data_daily]). *)
Theorem zero_filter_and_range_filter_commute
  (df : DataFrame) (from_date to_date : datetime) :
  monthly_rows df from_date to_date = daily_tds_ph_rows df from_date to_date.
Proof.
  unfold monthly_rows, daily_tds_ph_rows.
  rewrite (filter_swap (in_range from_date to_date) (nonzero cpH)).
  rewrite (filter_swap (in_range from_date to_date) (nonzero cTDS)).
  reflexivity.
Qed.

(** *** The update cycle *)

Lemma later_spec (a b : option datetime) :
  later a b = true <-> strictly_later a b.
Proof.
  destruct a as [x|], b as [y|]; cbn; try (split; [discriminate|tauto]).
  apply Z.ltb_lt.
Qed.

Lemma not_earlier_refl (a : option datetime) : not_earlier a a.
Proof. destruct a; cbn; [lia|exact I]. Qed.

Lemma not_earlier_trans (a b c : option datetime) :
  not_earlier a b -> not_earlier b c -> not_earlier a c.
Proof. destruct a, b, c; cbn; try tauto; lia. Qed.

(** The two outcomes of a turn of the loop. *)
Lemma update_cycle_cases
  (now : datetime) (raw_data data : api_response) (st : State) :
  df (update_cycle now raw_data data st) = df st
  \/ exists new_df,
       fetch_latest_data raw_data data = Some new_df
       /\ df (update_cycle now raw_data data st) = new_df
       /\ (df st = []
           \/ strictly_later (timestamp_max new_df) (timestamp_max (df st))).
Proof.
  unfold update_cycle.
  destruct (fetch_latest_data raw_data data) as [new_df|]; cbn; [|auto].
  destruct (empty new_df); cbn; [auto|].
  destruct (empty (df st)) eqn:Hempty; cbn.
  - destruct (df st) as [|r rest] eqn:Hdf; [|discriminate].
    right. exists new_df. auto.
  - destruct (later _ _) eqn:Hlater; cbn; [|auto].
    apply later_spec in Hlater. right. exists new_df. auto.
Qed.

Lemma update_cycle_not_earlier
  (now : datetime) (raw_data data : api_response) (st : State) :
  not_earlier (timestamp_max (df st))
              (timestamp_max (df (update_cycle now raw_data data st))).
Proof.
  destruct (update_cycle_cases now raw_data data st)
    as [->|(new_df & _ & -> & [->|Hlater])].
  - apply not_earlier_refl.
  - exact I.
  - destruct (timestamp_max new_df), (timestamp_max (df st)); cbn in *; lia.
Qed.

(** Over any number of turns of the loop the maximum timestamp of the shared
    frame does not go back. *)
Lemma update_data_never_goes_back
  (turns : list (datetime * api_response * api_response)) (st : State) :
  not_earlier (timestamp_max (df st)) (timestamp_max (df (update_data turns st))).
Proof.
  revert st.
  induction turns as [|[[now raw_data] data] rest IH]; intros st; cbn [update_data].
  - apply not_earlier_refl.
  - eapply not_earlier_trans; [apply update_cycle_not_earlier|apply IH].
Qed.

(** C9: a turn of the update loop either leaves the shared frame as it was,
    or replaces it by the whole newly computed frame, and it does the latter
    only when the current frame is empty or the new maximum timestamp is
    strictly later than the current one; the maximum timestamp of the shared
    frame never decreases. *)
Theorem update_cycle_replaces_or_keeps
  (now : datetime) (raw_data data : api_response) (st : State) :
  (df (update_cycle now raw_data data st) = df st
   \/ exists new_df,
        fetch_latest_data raw_data data = Some new_df
        /\ df (update_cycle now raw_data data st) = new_df
        /\ (df st = []
            \/ strictly_later (timestamp_max new_df) (timestamp_max (df st))))
  /\ not_earlier (timestamp_max (df st))
                 (timestamp_max (df (update_cycle now raw_data data st))).
Proof.
  split.
  - apply update_cycle_cases.
  - apply update_cycle_not_earlier.
Qed.

(** *** The cleaning stage, column by column *)

Lemma same_column_spec (c c' : Column) :
  if same_column c c' then c = c' else c <> c'.
Proof. destruct c, c'; cbn; congruence. Qed.

Lemma on_column_series (c c' : Column) (g : Series -> Series) (d d' : DataFrame) :
  series c d' = g (series c d) ->
  (forall c'', c <> c'' -> series c'' d' = series c'' d) ->
  series c' d' = on_column c c' g (series c' d).
Proof.
  intros Hsame Hother. unfold on_column.
  pose proof (same_column_spec c c') as H. destruct (same_column c c').
  - subst c'. assumption.
  - apply Hother. assumption.
Qed.

Lemma columns_assign (c : Column) (g : Series -> Series) (d : DataFrame)
  (ts : list datetime) (flow tds ph depth : Series) :
  (forall s, length (g s) = length s) ->
  columns_are d ts flow tds ph depth ->
  columns_are (assign c (g (series c d)) d) ts
    (on_column c cFlowInd g flow) (on_column c cTDS g tds)
    (on_column c cpH g ph) (on_column c cDepth g depth).
Proof.
  intros Hg (Hts & <- & <- & <- & <-).
  assert (Hlen : length (g (series c d)) = length d)
    by (rewrite Hg; apply length_series).
  split; [rewrite timestamps_assign; assumption|].
  repeat split; apply on_column_series;
    try (apply series_assign_same; assumption);
    intros c' Hne; apply series_assign_other; assumption.
Qed.

Lemma columns_loc_assign (c : Column) (mask : Row -> bool) (m : float64 -> bool)
  (v : Q) (d : DataFrame) (ts : list datetime) (flow tds ph depth : Series) :
  (forall r, mask r = m (get c r)) ->
  columns_are d ts flow tds ph depth ->
  let g := map (fun x => if m x then Some v else x) in
  columns_are (loc_assign mask c v d) ts
    (on_column c cFlowInd g flow) (on_column c cTDS g tds)
    (on_column c cpH g ph) (on_column c cDepth g depth).
Proof.
  intros Hmask (Hts & <- & <- & <- & <-) g.
  assert (Hsame : series c (loc_assign mask c v d) = g (series c d)).
  { unfold g, loc_assign, series. rewrite !map_map. apply map_ext. intros r.
    rewrite Hmask. destruct (m (get c r)); [apply get_set_same|reflexivity]. }
  split; [rewrite timestamps_loc_assign; assumption|].
  repeat split; apply on_column_series; try assumption;
    intros c' Hne; apply series_loc_assign_other; assumption.
Qed.

(** Give a name to the frame bound by the first [let] of the goal. *)
Ltac name_frame :=
  lazymatch goal with
  | |- context C [let x := ?v in @?f x] =>
      let d := fresh "d" in
      set (d := v) in *;
      let g := eval cbv beta in (f d) in
      let G := context C [g] in
      change G; clearbody d
  end.

Ltac assign_step H c g len :=
  lazymatch goal with
  | |- context [let x := assign c (g (series c ?d)) ?d in @?f x] =>
      apply (columns_assign c g d _ _ _ _ _ len) in H;
      cbn [on_column same_column] in H; name_frame
  end.

Ltac loc_step H c m :=
  lazymatch goal with
  | |- context [let x := loc_assign ?mask c ?v ?d in @?f x] =>
      apply (columns_loc_assign c mask m v d _ _ _ _ _ (fun r => eq_refl)) in H;
      cbn [on_column same_column] in H; name_frame
  end.

Lemma clean_columns (kept : list (datetime * RawRecord)) :
  let raw c := map (fun p => to_numeric (cell (name c) (snd p))) kept in
  let cleaned c := map (clamp c) (round (decimals c) (null_repair (raw c))) in
  columns_are (clean kept) (map fst kept)
    (cleaned cFlowInd) (cleaned cTDS) (cleaned cpH) (cleaned cDepth).
Proof.
  intros raw cleaned. cbv beta delta [clean].
  lazymatch goal with
  | |- context [let x := ?v in @?f x] =>
      assert (H : columns_are v (map fst kept)
                    (raw cFlowInd) (raw cTDS) (raw cpH) (raw cDepth))
  end.
  { unfold columns_are, series, raw. rewrite !map_map. auto. }
  name_frame.
  assign_step H cTDS null_repair length_null_repair.
  assign_step H cpH null_repair length_null_repair.
  assign_step H cDepth null_repair length_null_repair.
  assign_step H cFlowInd null_repair length_null_repair.
  assign_step H cTDS (round 0) (length_round 0).
  assign_step H cDepth (round 2) (length_round 2).
  assign_step H cpH (round 2) (length_round 2).
  assign_step H cFlowInd (round 2) (length_round 2).
  loc_step H cpH (fun x => lt x 0).
  loc_step H cpH (fun x => gt x 14).
  loc_step H cTDS (fun x => lt x 0).
  loc_step H cDepth (fun x => lt x 0).
  loc_step H cFlowInd (fun x => lt x 0).
  rewrite map_map in H. exact H.
Qed.

Lemma surviving_timestamps (recs : list RawRecord) (fmt : string) :
  map fst (surviving recs fmt)
  = omap (fun r => to_datetime fmt (cell "timestamp" r)) recs.
Proof.
  unfold surviving. induction recs as [|r recs IH]; [reflexivity|].
  cbn [map combine dropna_timestamp omap list_omap].
  destruct (to_datetime fmt (cell "timestamp" r)); cbn [map]; rewrite IH; reflexivity.
Qed.

Lemma surviving_from_records (recs : list RawRecord) (fmt : string)
  (p : datetime * RawRecord) :
  In p (surviving recs fmt) ->
  In (snd p) recs /\ to_datetime fmt (cell "timestamp" (snd p)) = Some (fst p).
Proof.
  unfold surviving. induction recs as [|r recs IH]; [intros []|].
  cbn [map combine dropna_timestamp].
  destruct (to_datetime fmt (cell "timestamp" r)) as [t|] eqn:Ht.
  - intros [<-|Hin]; cbn; [auto|]. destruct (IH Hin). auto.
  - intros Hin. destruct (IH Hin). cbn. auto.
Qed.

(** What [preprocess_data] returns, when it returns a frame. *)
Lemma preprocess_data_Some (data : api_response) (fmt : string) (d : DataFrame) :
  preprocess_data data fmt = Some d ->
  exists recs, data = Some recs /\ d = clean (surviving recs fmt).
Proof.
  unfold preprocess_data, preprocess_data_body.
  destruct data as [[|r recs]|]; cbn [try_except]; try discriminate.
  destruct (getitem "timestamp" (r :: recs));
    cbn [mbind result_bind Py.bind try_except]; [|discriminate].
  destruct (forallb _ _); cbn [try_except]; [|discriminate].
  intros [= <-]. eauto.
Qed.

(** C7: every row of the cleaned frame carries the timestamp that
    [to_datetime] read, under the given format, in a raw record; the
    timestamps of the frame are exactly the readable ones, in order, so that
    a record whose timestamp is not read leaves no row. *)
Theorem cleaned_rows_have_parsed_timestamps
  (data : api_response) (date_format : string) (d : DataFrame) :
  preprocess_data data date_format = Some d ->
  exists recs,
    data = Some recs
    /\ map timestamp d
       = omap (fun r => to_datetime date_format (cell "timestamp" r)) recs
    /\ forall row, In row d ->
         exists r, In r recs
                   /\ to_datetime date_format (cell "timestamp" r) = Some (timestamp row).
Proof.
  intros H. apply preprocess_data_Some in H as (recs & -> & ->).
  exists recs. split; [reflexivity|].
  destruct (clean_columns (surviving recs date_format)) as (Hts & _).
  split; [rewrite Hts; apply surviving_timestamps|].
  intros row Hrow. apply (in_map timestamp) in Hrow. rewrite Hts in Hrow.
  apply in_map_iff in Hrow as (p & <- & Hp).
  apply surviving_from_records in Hp as (Hin & Hparse). eauto.
Qed.

(** *** Rounding and range validation of one value *)

Lemma rint_comp (q q' : Q) : (q == q')%Q -> rint q = rint q'.
Proof.
  intros H. unfold rint. rewrite (Qfloor_comp _ _ H).
  assert (Hc : Qcompare (q - inject_Z (Qfloor q')) (1 # 2)
               = Qcompare (q' - inject_Z (Qfloor q')) (1 # 2))
    by (rewrite H; reflexivity).
  rewrite Hc. reflexivity.
Qed.

(** Rounding does not depend on how the rational is written. *)
Lemma round_Q_comp (n : nat) (q q' : Q) : (q == q')%Q -> round_Q n q = round_Q n q'.
Proof.
  intros H. unfold round_Q. rewrite (rint_comp (q * pow10 n) (q' * pow10 n)).
  - reflexivity.
  - rewrite H. reflexivity.
Qed.

Lemma clamp_range (c : Column) (q : Q) :
  exists v, clamp c (Some q) = Some v
            /\ (0 <= v)%Q /\ (c = cpH -> (v <= 14)%Q).
Proof.
  assert (H0 : (0 <= 0)%Q) by discriminate.
  assert (H7 : (0 <= 7)%Q) by discriminate.
  assert (H14 : (7 <= 14)%Q) by discriminate.
  destruct c; cbn [clamp lt]; destruct (Qle_bool 0 q) eqn:Hlo; cbn [negb];
    try apply Qle_bool_iff in Hlo;
    try (eexists; split; [reflexivity|split; [assumption|discriminate]]).
  cbn [gt]. destruct (Qle_bool q 14) eqn:Hhi; cbn [negb].
  - apply Qle_bool_iff in Hhi. eauto.
  - eauto.
Qed.

(** A cell of a cleaned column, from the cell of the repaired column. *)
Lemma cleaned_cell (c : Column) (s : Series) (i : nat) (q : Q) :
  null_repair s !! i = Some (Some q) ->
  map (clamp c) (round (decimals c) (null_repair s)) !! i
  = Some (clamp c (Some (round_Q (decimals c) q))).
Proof.
  intros H. unfold round. rewrite !lookup_map, H. reflexivity.
Qed.

Lemma In_lookup {A : Type} (l : list A) (x : A) :
  In x l -> exists i, l !! i = Some x.
Proof.
  induction l as [|a l IH]; [intros []|]. intros [->|H].
  - exists 0%nat. reflexivity.
  - destruct (IH H) as [i Hi]. exists (S i). exact Hi.
Qed.

Lemma cleaned_column_range (c : Column) (s : Series) (x : float64) :
  In x (map (clamp c) (round (decimals c) (null_repair s))) ->
  exists v, x = Some v /\ (0 <= v)%Q /\ (c = cpH -> (v <= 14)%Q).
Proof.
  intros H. apply In_lookup in H as [i Hi].
  unfold round in Hi. rewrite !lookup_map in Hi.
  destruct (null_repair s !! i) as [y|] eqn:Hy; [|discriminate].
  destruct (null_repair_valid _ _ _ Hy) as [q ->]. cbn [option_map] in Hi.
  injection Hi as <-. apply clamp_range.
Qed.

(** C5: in every cleaned frame pH lies in [0, 14] and TDS, depth and the
    flow indicator are not negative; a pH read as -5 or as 20 becomes
    exactly 7, and a TDS, depth or flow indicator read as -3 becomes 0. *)
Theorem cleaned_values_in_range
  (recs : list RawRecord) (date_format : string) (d : DataFrame) :
  preprocess_data (Some recs) date_format = Some d ->
  (forall row, In row d ->
     (exists p, pH row = Some p /\ 0 <= p /\ p <= 14)%Q
     /\ (exists v, TDS row = Some v /\ 0 <= v)%Q
     /\ (exists v, Depth row = Some v /\ 0 <= v)%Q
     /\ (exists v, FlowInd row = Some v /\ 0 <= v)%Q)
  /\ (forall i q,
        raw_series cpH recs date_format !! i = Some (Some q) ->
        (q == -5 \/ q == 20)%Q ->
        series cpH d !! i = Some (Some 7%Q))
  /\ (forall c i q,
        c <> cpH ->
        raw_series c recs date_format !! i = Some (Some q) ->
        (q == -3)%Q ->
        series c d !! i = Some (Some 0%Q)).
Proof.
  intros H. apply preprocess_data_Some in H as (recs' & [= <-] & ->).
  destruct (clean_columns (surviving recs date_format))
    as (_ & Hflow & Htds & Hph & Hdepth).
  fold (raw_series cFlowInd recs date_format) in Hflow.
  fold (raw_series cTDS recs date_format) in Htds.
  fold (raw_series cpH recs date_format) in Hph.
  fold (raw_series cDepth recs date_format) in Hdepth.
  split; [|split].
  - intros row Hrow.
    assert (Hc : forall c, exists v, get c row = Some v
                                     /\ (0 <= v)%Q /\ (c = cpH -> (v <= 14)%Q)).
    { intros c. apply (in_map (get c)) in Hrow. fold (series c (clean (surviving recs date_format))) in Hrow.
      destruct c; rewrite ?Hflow, ?Htds, ?Hph, ?Hdepth in Hrow;
        apply cleaned_column_range in Hrow; exact Hrow. }
    destruct (Hc cpH) as (p & Hp & Hp0 & Hp14).
    destruct (Hc cTDS) as (t & Ht & Ht0 & _).
    destruct (Hc cDepth) as (dp & Hdp & Hdp0 & _).
    destruct (Hc cFlowInd) as (f & Hf & Hf0 & _).
    cbn [get] in Hp, Ht, Hdp, Hf. specialize (Hp14 eq_refl).
    split; [exists p; split; [exact Hp|split; [exact Hp0|exact Hp14]]|].
    split; [exists t; split; [exact Ht|exact Ht0]|].
    split; [exists dp; split; [exact Hdp|exact Hdp0]|exists f; split; [exact Hf|exact Hf0]].
  - intros i q Hraw Hq. rewrite Hph.
    rewrite (cleaned_cell cpH _ i q) by (apply null_repair_keeps; assumption).
    destruct Hq as [Hq|Hq]; rewrite (round_Q_comp _ _ _ Hq); vm_compute; reflexivity.
  - intros c i q Hc Hraw Hq.
    assert (Hs : series c (clean (surviving recs date_format))
                 = map (clamp c) (round (decimals c)
                                    (null_repair (raw_series c recs date_format))))
      by (destruct c; assumption).
    rewrite Hs, (cleaned_cell c _ i q) by (apply null_repair_keeps; assumption).
    rewrite (round_Q_comp _ _ _ Hq). destruct c; try (vm_compute; reflexivity). congruence.
Qed.

(** C4 (amended): when the values of a numeric column of the surviving
    records are NaN, NaN, 5, NaN, 8, the null repair (forward fill, then
    backward fill, then 0) gives 5, 5, 5, 5, 8: the forward fill gives the
    fourth value the 5 before it, and the backward fill gives the two
    leading values the 5 after them; the cleaned column holds the same
    values. *)
Theorem null_repair_fills_forward_first
  (recs : list RawRecord) (date_format : string) (d : DataFrame) (c : Column) :
  preprocess_data (Some recs) date_format = Some d ->
  raw_series c recs date_format = [None; None; Some 5%Q; None; Some 8%Q] ->
  null_repair (raw_series c recs date_format)
  = [Some 5%Q; Some 5%Q; Some 5%Q; Some 5%Q; Some 8%Q]
  /\ series c d = [Some 5%Q; Some 5%Q; Some 5%Q; Some 5%Q; Some 8%Q].
Proof.
  intros H Hraw. apply preprocess_data_Some in H as (recs' & [= <-] & ->).
  split; [rewrite Hraw; vm_compute; reflexivity|].
  destruct (clean_columns (surviving recs date_format))
    as (_ & Hflow & Htds & Hph & Hdepth).
  unfold raw_series in Hraw.
  destruct c; rewrite ?Hflow, ?Htds, ?Hph, ?Hdepth, Hraw; vm_compute; reflexivity.
Qed.

(** *** Resampling *)

Lemma in_zrange (lo hi i : Z) : In i (zrange lo hi) <-> lo <= i <= hi.
Proof.
  unfold zrange. rewrite in_map_iff. split.
  - intros (n & <- & Hn). apply in_seq in Hn. lia.
  - intros H. exists (Z.to_nat (i - lo)). split; [lia|]. apply in_seq. lia.
Qed.

Lemma zmin_le (k : Z) (ks : list Z) (x : Z) : In x (k :: ks) -> zmin k ks <= x.
Proof.
  unfold zmin. induction ks as [|y ks IH]; cbn.
  - intros [->|[]]. lia.
  - intros [->|[->|H]]; [| lia |]; cbn in IH.
    + pose proof (IH (or_introl eq_refl)). lia.
    + pose proof (IH (or_intror H)). lia.
Qed.

Lemma zmax_ge_in (k : Z) (ks : list Z) (x : Z) : In x (k :: ks) -> x <= zmax k ks.
Proof.
  unfold zmax. induction ks as [|y ks IH]; cbn.
  - intros [->|[]]. lia.
  - intros [->|[->|H]]; [| lia |]; cbn in IH.
    + pose proof (IH (or_introl eq_refl)). lia.
    + pose proof (IH (or_intror H)). lia.
Qed.

Lemma zmin_in (k : Z) (ks : list Z) : In (zmin k ks) (k :: ks).
Proof.
  unfold zmin. induction ks as [|y ks IH]; cbn; [auto|].
  destruct (Z.min_spec y (fold_right Z.min k ks)) as [[_ ->]|[_ ->]]; [auto|].
  destruct IH as [H|H]; [left; exact H|right; right; exact H].
Qed.

Lemma zmax_in (k : Z) (ks : list Z) : In (zmax k ks) (k :: ks).
Proof.
  unfold zmax. induction ks as [|y ks IH]; cbn; [auto|].
  destruct (Z.max_spec y (fold_right Z.max k ks)) as [[_ ->]|[_ ->]]; [|auto].
  destruct IH as [H|H]; [left; exact H|right; right; exact H].
Qed.

(** The bins of a resampling: every bin between those of two rows, each with
    the rows that fall in it. *)
Lemma in_resample (f : Freq) (d : DataFrame) (i : Z) (g : DataFrame) :
  In (i, g) (resample timestamp f d) <-> spans f d i /\ g = bucket f i d.
Proof.
  unfold resample, spans, bucket.
  destruct (map (fun r => bin f (timestamp r)) d) as [|k ks] eqn:Hbins.
  - destruct d; [|discriminate]. split; [intros []|].
    intros [(r1 & _ & [] & _) _].
  - rewrite in_map_iff. split.
    + intros (j & [= -> <-] & Hj). split; [|reflexivity].
      apply in_zrange in Hj.
      pose proof (zmin_in k ks) as Hlo. pose proof (zmax_in k ks) as Hhi.
      rewrite <- Hbins in Hlo, Hhi.
      apply in_map_iff in Hlo as (r1 & Hr1 & Hin1).
      apply in_map_iff in Hhi as (r2 & Hr2 & Hin2).
      exists r1, r2. rewrite Hr1, Hr2. repeat split; try assumption; lia.
    + intros [(r1 & r2 & Hin1 & Hin2 & Hlo & Hhi) ->].
      exists i. split; [reflexivity|]. apply in_zrange.
      assert (H1 : In (bin f (timestamp r1)) (k :: ks))
        by (rewrite <- Hbins;
            apply (in_map (fun r => bin f (timestamp r))); assumption).
      assert (H2 : In (bin f (timestamp r2)) (k :: ks))
        by (rewrite <- Hbins;
            apply (in_map (fun r => bin f (timestamp r))); assumption).
      apply zmin_le in H1. apply zmax_ge_in in H2. lia.
Qed.

Lemma in_resample_agg (f : Freq) (a b c e : Series -> float64) (d : DataFrame)
  (row : Row) :
  In row (resample_agg f a b c e d)
  <-> exists i,
        spans f d i
        /\ row = mkRow (label f i)
                   (a (series cFlowInd (bucket f i d)))
                   (c (series cTDS (bucket f i d)))
                   (e (series cpH (bucket f i d)))
                   (b (series cDepth (bucket f i d))).
Proof.
  unfold resample_agg. rewrite in_map_iff. split.
  - intros ([i g] & <- & Hin). apply in_resample in Hin as [Hspan ->]. eauto.
  - intros (i & Hspan & ->). exists (i, bucket f i d). split; [reflexivity|].
    apply in_resample. auto.
Qed.

Lemma in_resample_agg2 (f : Freq) (c1 c2 : Column) (a b : Series -> float64)
  (d : DataFrame) (p : datetime * (float64 * float64)) :
  In p (resample_agg2 f c1 c2 a b d)
  <-> exists i,
        spans f d i
        /\ p = (label f i, (a (series c1 (bucket f i d)), b (series c2 (bucket f i d)))).
Proof.
  unfold resample_agg2. rewrite in_map_iff. split.
  - intros ([i g] & <- & Hin). apply in_resample in Hin as [Hspan ->]. eauto.
  - intros (i & Hspan & ->). exists (i, bucket f i d). split; [reflexivity|].
    apply in_resample. auto.
Qed.

Lemma in_merge_inner (water tds_ph : list (datetime * (float64 * float64))) (row : Row) :
  In row (merge_inner water tds_ph)
  <-> exists l r,
        In l water /\ In r tds_ph /\ fst r = fst l
        /\ row = mkRow (fst l) (fst (snd l)) (fst (snd r)) (snd (snd r)) (snd (snd l)).
Proof.
  unfold merge_inner. rewrite in_flat_map. split.
  - intros (l & Hl & Hrow). apply in_map_iff in Hrow as (r & <- & Hr).
    apply filter_In in Hr as [Hr Heq]. apply Z.eqb_eq in Heq. eauto 10.
  - intros (l & r & Hl & Hr & Heq & ->). exists l. split; [assumption|].
    apply in_map_iff. exists r. split; [reflexivity|].
    apply filter_In. split; [assumption|]. apply Z.eqb_eq. assumption.
Qed.

Lemma spans_incl (f : Freq) (d d' : DataFrame) (i : Z) :
  (forall r, In r d -> In r d') -> spans f d i -> spans f d' i.
Proof. intros H (r1 & r2 & H1 & H2 & Hb). exists r1, r2. auto. Qed.

Lemma label_D_inj (i j : Z) : label freq_D i = label freq_D j -> i = j.
Proof. cbn. unfold ns_per_day, ns_per_second. lia. Qed.

(** *** The ranged aggregations *)

Lemma filter_data_daily_Ok (data : api_response) (from_date to_date : string)
  (f t : datetime) (d : DataFrame) :
  preprocess_data data default_date_format = Some d ->
  parser_parse from_date = Ok f ->
  parser_parse to_date = Ok t ->
  filter_data_daily data from_date to_date
  = Ok (merge_inner
          (resample_agg2 freq_D cFlowInd cDepth mean mean (List.filter (in_range f t) d))
          (resample_agg2 freq_D cTDS cpH mean mean (daily_tds_ph_rows d f t))).
Proof. intros Hd Hf Ht. unfold filter_data_daily. rewrite Hd, Hf, Ht. reflexivity. Qed.

Lemma daily_rows_incl (d : DataFrame) (f t : datetime) (r : Row) :
  In r (daily_tds_ph_rows d f t) -> In r (List.filter (in_range f t) d).
Proof.
  unfold daily_tds_ph_rows. intros H.
  apply filter_In in H as [H _]. apply filter_In in H as [H _]. exact H.
Qed.

(** The rows of the daily output: one for each day between two days that
    have a row with nonzero TDS and pH in the range. *)
Lemma in_daily_output (d : DataFrame) (f t : datetime) (row : Row) :
  In row (merge_inner
            (resample_agg2 freq_D cFlowInd cDepth mean mean (List.filter (in_range f t) d))
            (resample_agg2 freq_D cTDS cpH mean mean (daily_tds_ph_rows d f t)))
  <-> exists i,
        spans freq_D (daily_tds_ph_rows d f t) i
        /\ row = mkRow (label freq_D i)
                   (mean (series cFlowInd (bucket freq_D i (List.filter (in_range f t) d))))
                   (mean (series cTDS (bucket freq_D i (daily_tds_ph_rows d f t))))
                   (mean (series cpH (bucket freq_D i (daily_tds_ph_rows d f t))))
                   (mean (series cDepth (bucket freq_D i (List.filter (in_range f t) d)))).
Proof.
  rewrite in_merge_inner. split.
  - intros (l & r & Hl & Hr & Heq & ->).
    apply in_resample_agg2 in Hl as (i & Hi & ->).
    apply in_resample_agg2 in Hr as (j & Hj & ->).
    cbn [fst snd] in *. apply label_D_inj in Heq. subst j. eauto.
  - intros (i & Hi & ->).
    eexists (_, (_, _)), (_, (_, _)). split; [|split; [|split]].
    + apply in_resample_agg2. exists i. split; [|reflexivity].
      apply (spans_incl _ _ _ _ (daily_rows_incl d f t)). exact Hi.
    + apply in_resample_agg2. exists i. split; [exact Hi|reflexivity].
    + reflexivity.
    + reflexivity.
Qed.

(** C8 (amended): the daily, weekly and monthly aggregations round nothing
    after the reduction: every numeric value of a row of their output is
    the very result of the reducer (mean or sum) over the cleaned rows of
    its bin. *)
Theorem aggregates_are_reducer_results
  (data : api_response) (from_date to_date : string) (f t : datetime) (d : DataFrame) :
  preprocess_data data default_date_format = Some d ->
  parser_parse from_date = Ok f ->
  parser_parse to_date = Ok t ->
  (exists out,
     filter_data_daily data from_date to_date = Ok out
     /\ forall row, In row out ->
          exists i, timestamp row = label freq_D i
                    /\ reduced_by mean mean mean mean
                         (bucket freq_D i (List.filter (in_range f t) d))
                         (bucket freq_D i (daily_tds_ph_rows d f t)) row)
  /\ (exists out,
        filter_data_weekly data from_date to_date = Ok out
        /\ forall row, In row out ->
             exists i, timestamp row = label freq_W_Mon i
                       /\ reduced_by sum sum mean mean
                            (bucket freq_W_Mon i (List.filter (in_range f t) d))
                            (bucket freq_W_Mon i (List.filter (in_range f t) d)) row)
  /\ (exists out,
        filter_data_monthly data from_date to_date = Ok out
        /\ forall row, In row out ->
             exists i, timestamp row = label freq_ME i
                       /\ reduced_by sum sum mean mean
                            (bucket freq_ME i (monthly_rows d f t))
                            (bucket freq_ME i (monthly_rows d f t)) row).
Proof.
  intros Hd Hf Ht. split; [|split].
  - eexists. split; [apply (filter_data_daily_Ok _ _ _ f t d); assumption|].
    intros row Hrow. apply in_daily_output in Hrow as (i & _ & ->).
    exists i. unfold reduced_by. cbn [timestamp FlowInd Depth TDS pH]. auto.
  - unfold filter_data_weekly. rewrite Hd, Hf, Ht. eexists. split; [reflexivity|].
    intros row Hrow. apply in_resample_agg in Hrow as (i & _ & ->).
    exists i. unfold reduced_by. cbn [timestamp FlowInd Depth TDS pH]. auto.
  - unfold filter_data_monthly. rewrite Hd, Hf, Ht. eexists. split; [reflexivity|].
    intros row Hrow. apply in_resample_agg in Hrow as (i & _ & ->).
    exists i. unfold reduced_by. cbn [timestamp FlowInd Depth TDS pH]. auto.
Qed.

(** C6 (amended): the daily aggregation inner-joins, on the timestamp of
    the bin, the daily means of FlowInd and Depth over all the rows of the
    range with the daily means of TDS and pH over the rows of the range
    with nonzero TDS and pH.  Its output has a row for a day exactly when
    the day lies between two days (possibly the same) that have such a
    nonzero row: a day with flow data and no nonzero row has no row in the
    output when it lies before the first or after the last of them, and a
    row with missing TDS and pH when it lies between them. *)
Theorem daily_output_spans_the_nonzero_days
  (data : api_response) (from_date to_date : string) (f t : datetime) (d : DataFrame) :
  preprocess_data data default_date_format = Some d ->
  parser_parse from_date = Ok f ->
  parser_parse to_date = Ok t ->
  exists out,
    filter_data_daily data from_date to_date = Ok out
    /\ out = merge_inner
               (resample_agg2 freq_D cFlowInd cDepth mean mean
                  (List.filter (in_range f t) d))
               (resample_agg2 freq_D cTDS cpH mean mean
                  (List.filter (nonzero cpH)
                     (List.filter (nonzero cTDS) (List.filter (in_range f t) d))))
    /\ (forall day,
          (exists row, In row out /\ timestamp row = label freq_D day)
          <-> exists r1 r2,
                In r1 (daily_tds_ph_rows d f t) /\ In r2 (daily_tds_ph_rows d f t)
                /\ date (timestamp r1) <= day /\ day <= date (timestamp r2))
    /\ (forall day row,
          In row out -> timestamp row = label freq_D day ->
          reduced_by mean mean mean mean
            (bucket freq_D day (List.filter (in_range f t) d))
            (bucket freq_D day (daily_tds_ph_rows d f t)) row
          /\ (bucket freq_D day (daily_tds_ph_rows d f t) = [] ->
              TDS row = None /\ pH row = None)).
Proof.
  intros Hd Hf Ht. eexists.
  split; [apply (filter_data_daily_Ok _ _ _ f t d); assumption|].
  split; [reflexivity|]. split.
  - intros day. split.
    + intros (row & Hrow & Hts). apply in_daily_output in Hrow as (i & Hi & ->).
      cbn [timestamp] in Hts. apply label_D_inj in Hts. subst i. exact Hi.
    + intros Hspan. eexists. split; [apply in_daily_output; eauto|reflexivity].
  - intros day row Hrow Hts. apply in_daily_output in Hrow as (i & Hi & ->).
    cbn [timestamp] in Hts. apply label_D_inj in Hts. subst i.
    unfold reduced_by. cbn [FlowInd Depth TDS pH].
    split; [auto|]. intros ->. auto.
Qed.

(** *** More on the cleaning stage *)



(** The columns of a cleaned frame, one by one. *)
Lemma clean_series (kept : list (datetime * RawRecord)) (c : Column) :
  series c (clean kept)
  = map (clamp c)
      (round (decimals c)
         (null_repair (map (fun p => to_numeric (cell (name c) (snd p))) kept))).
Proof.
  destruct (clean_columns kept) as (_ & Hflow & Htds & Hph & Hdepth).
  destruct c; assumption.
Qed.

#[local] Opaque clean.

(** Every cell of a cleaned frame holds a value, not negative, and at most
    14 in the pH column. *)
Lemma clean_cell_range (kept : list (datetime * RawRecord)) (c : Column) (row : Row) :
  In row (clean kept) ->
  exists v, get c row = Some v /\ (0 <= v)%Q /\ (c = cpH -> (v <= 14)%Q).
Proof.
  intros Hrow. apply (in_map (get c)) in Hrow.
  fold (series c (clean kept)) in Hrow. rewrite clean_series in Hrow.
  apply cleaned_column_range in Hrow. exact Hrow.
Qed.

Lemma ffill_from_None_all (s : Series) :
  (forall x, In x s -> x = None) -> ffill_from None s = s.
Proof.
  induction s as [|x s IH]; [reflexivity|]. intros H.
  rewrite (H x (or_introl eq_refl)). cbn. f_equal. apply IH.
  intros y Hy. apply H. right. exact Hy.
Qed.

Lemma bfill_None_all (s : Series) :
  (forall x, In x s -> x = None) -> bfill s = s.
Proof.
  induction s as [|x s IH]; [reflexivity|]. intros H.
  assert (Hs : forall y, In y s -> y = None) by (intros y Hy; apply H; right; exact Hy).
  rewrite (H x (or_introl eq_refl)). cbn. rewrite (IH Hs). f_equal.
  destruct s as [|y s']; [reflexivity|]. cbn. apply Hs. left. reflexivity.
Qed.

(** X6: when no surviving record has a readable value in a numeric column,
    the whole cleaned column is 0; this holds for pH too, whose fallback is
    0 and not the neutral 7. *)
Theorem column_without_values_is_cleaned_to_zero
  (recs : list RawRecord) (date_format : string) (d : DataFrame) (c : Column) :
  preprocess_data (Some recs) date_format = Some d ->
  (forall x, In x (raw_series c recs date_format) -> x = None) ->
  forall v, In v (series c d) -> v = Some 0%Q.
Proof.
  intros H Hnone v Hv. apply preprocess_data_Some in H as (recs' & [= <-] & ->).
  rewrite clean_series in Hv. fold (raw_series c recs date_format) in Hv.
  unfold null_repair, ffill in Hv.
  rewrite (ffill_from_None_all _ Hnone), (bfill_None_all _ Hnone) in Hv.
  unfold round, fillna in Hv. rewrite !map_map in Hv.
  apply in_map_iff in Hv as (x & <- & Hx). rewrite (Hnone x Hx).
  destruct c; vm_compute; reflexivity.
Qed.

Lemma ffill_from_gap (last : float64) (s : Series) (i : nat) :
  (i < length s)%nat ->
  (forall k, (k <= i)%nat -> s !! k = Some None) ->
  ffill_from last s !! i = Some last.
Proof.
  revert i. induction s as [|x s IH]; intros i Hlen Hgap; [cbn in Hlen; lia|].
  pose proof (Hgap 0%nat ltac:(lia)) as H0. cbn in H0. injection H0 as ->.
  cbn [ffill_from]. destruct i as [|i]; [reflexivity|]. cbn.
  apply IH; [cbn in Hlen; lia|]. intros k Hk. apply (Hgap (S k)). lia.
Qed.

Lemma ffill_from_carries (last : float64) (s : Series) (j i : nat) (q : Q) :
  s !! j = Some (Some q) ->
  (j <= i)%nat -> (i < length s)%nat ->
  (forall k, (j < k)%nat -> (k <= i)%nat -> s !! k = Some None) ->
  ffill_from last s !! i = Some (Some q).
Proof.
  revert last j i. induction s as [|x s IH]; intros last j i Hj Hji Hlen Hgap;
    [discriminate|].
  destruct j as [|j].
  - cbn in Hj. injection Hj as ->. cbn [ffill_from].
    destruct i as [|i]; [reflexivity|]. cbn.
    apply ffill_from_gap; [cbn in Hlen; lia|].
    intros k Hk. apply (Hgap (S k)); lia.
  - destruct i as [|i]; [lia|]. cbn in Hj.
    assert (Hrec : forall last', ffill_from last' s !! i = Some (Some q)).
    { intros last'. apply (IH last' j i); [assumption|lia|cbn in Hlen; lia|].
      intros k Hk1 Hk2. apply (Hgap (S k)); lia. }
    destruct x; cbn; apply Hrec.
Qed.

Lemma ffill_from_None_prefix (s : Series) (j k : nat) :
  (forall k', (k' < j)%nat -> s !! k' = Some None) ->
  (k < j)%nat -> ffill_from None s !! k = Some None.
Proof.
  intros Hgap Hk. apply ffill_from_gap.
  - apply lookup_lt_Some with (x := None). apply Hgap. exact Hk.
  - intros k' Hk'. apply Hgap. lia.
Qed.

Lemma bfill_leading (t : Series) (j i : nat) (q : Q) :
  (forall k, (k < j)%nat -> t !! k = Some None) ->
  t !! j = Some (Some q) ->
  (i <= j)%nat ->
  bfill t !! i = Some (Some q).
Proof.
  revert j i. induction t as [|x t IH]; intros j i Hgap Hj Hij; [discriminate|].
  destruct j as [|j].
  - cbn in Hj. injection Hj as ->. assert (i = 0%nat) as -> by lia. reflexivity.
  - pose proof (Hgap 0%nat ltac:(lia)) as H0. cbn in H0. injection H0 as ->.
    cbn in Hj. cbn [bfill].
    assert (Hrec : forall i', (i' <= j)%nat -> bfill t !! i' = Some (Some q)).
    { intros i' Hi'. apply (IH j i'); [|assumption|assumption].
      intros k Hk. apply (Hgap (S k)). lia. }
    destruct i as [|i]; [|cbn; apply Hrec; lia].
    cbn. pose proof (Hrec 0%nat ltac:(lia)) as Hhd.
    destruct (bfill t) as [|y t']; [discriminate|]. cbn in Hhd |- *. congruence.
Qed.

(** X7: in a numeric column a missing value takes the last readable value
    before it (forward fill): the cleaned cell is the rounded and validated
    form of that value. *)
Theorem missing_value_takes_the_last_value_before
  (recs : list RawRecord) (date_format : string) (d : DataFrame) (c : Column)
  (j i : nat) (q : Q) :
  preprocess_data (Some recs) date_format = Some d ->
  raw_series c recs date_format !! j = Some (Some q) ->
  (j <= i)%nat -> (i < length (raw_series c recs date_format))%nat ->
  (forall k, (j < k)%nat -> (k <= i)%nat ->
             raw_series c recs date_format !! k = Some None) ->
  series c d !! i = Some (clamp c (Some (round_Q (decimals c) q))).
Proof.
  intros H Hj Hji Hlen Hgap. apply preprocess_data_Some in H as (recs' & [= <-] & ->).
  rewrite clean_series. fold (raw_series c recs date_format).
  apply cleaned_cell. unfold null_repair, fillna, ffill.
  rewrite lookup_map, (bfill_keeps _ i q); [reflexivity|].
  apply (ffill_from_carries None _ j i q); assumption.
Qed.

(** X8: the missing values at the head of a numeric column, which have no
    value before them, take the first readable value of the column
    (backward fill). *)
Theorem leading_missing_values_take_the_first_value
  (recs : list RawRecord) (date_format : string) (d : DataFrame) (c : Column)
  (j i : nat) (q : Q) :
  preprocess_data (Some recs) date_format = Some d ->
  (forall k, (k < j)%nat -> raw_series c recs date_format !! k = Some None) ->
  raw_series c recs date_format !! j = Some (Some q) ->
  (i <= j)%nat ->
  series c d !! i = Some (clamp c (Some (round_Q (decimals c) q))).
Proof.
  intros H Hgap Hj Hij. apply preprocess_data_Some in H as (recs' & [= <-] & ->).
  rewrite clean_series. fold (raw_series c recs date_format).
  apply cleaned_cell. unfold null_repair, fillna, ffill.
  rewrite lookup_map, (bfill_leading _ j i q); [reflexivity| | |assumption].
  - intros k Hk. apply (ffill_from_None_prefix _ j k); assumption.
  - apply ffill_from_keeps. assumption.
Qed.

(** *** Decimals of the cleaned values *)

Lemma round_Q_on_grid (n : nat) (q : Q) :
  exists k : Z, (round_Q n q == inject_Z k / pow10 n)%Q.
Proof. exists (rint (q * pow10 n)). unfold round_Q. apply Qred_correct. Qed.

Lemma clamp_cases (c : Column) (x : Q) :
  clamp c (Some x) = Some x \/ clamp c (Some x) = Some 7%Q \/ clamp c (Some x) = Some 0%Q.
Proof.
  destruct c; unfold clamp, pd.lt, pd.gt; destruct (Qle_bool 0 x); cbn [negb];
    try (destruct (Qle_bool x 14); cbn [negb]); auto.

Qed.

(** X9: in every cleaned frame TDS is a whole number and pH, depth and the
    flow indicator are whole numbers of hundredths. *)
Theorem cleaned_values_have_their_decimals
  (data : api_response) (date_format : string) (d : DataFrame) (row : Row) :
  preprocess_data data date_format = Some d ->
  In row d ->
  (exists v k, TDS row = Some v /\ (v == inject_Z k)%Q)
  /\ (exists v k, pH row = Some v /\ (v == k # 100)%Q)
  /\ (exists v k, Depth row = Some v /\ (v == k # 100)%Q)
  /\ (exists v k, FlowInd row = Some v /\ (v == k # 100)%Q).
Proof.
  intros H Hrow. apply preprocess_data_Some in H as (recs & -> & ->).
  assert (Hc : forall c, exists v k,
               get c row = Some v /\ (v == inject_Z k / pow10 (decimals c))%Q).
  { intros c. apply (in_map (get c)) in Hrow.
    fold (series c (clean (surviving recs date_format))) in Hrow.
    rewrite clean_series in Hrow. apply In_lookup in Hrow as [i Hi].
    unfold round in Hi. rewrite !lookup_map in Hi.
    destruct (null_repair _ !! i) as [y|] eqn:Hy; [|discriminate].
    destruct (null_repair_valid _ _ _ Hy) as [q ->]. cbn [option_map] in Hi.
    injection Hi as <-.
    destruct (clamp_cases c (round_Q (decimals c) q)) as [-> | [-> | ->]].
    - destruct (round_Q_on_grid (decimals c) q) as [k Hk]. eauto.
    - exists 7%Q, (7 * 10 ^ Z.of_nat (decimals c)). split; [reflexivity|].
      destruct c; vm_compute; reflexivity.
    - exists 0%Q, 0. split; [reflexivity|]. destruct c; vm_compute; reflexivity. }
  assert (H100 : forall k, (inject_Z k / pow10 2 == k # 100)%Q).
  { intros k. unfold pow10. change (10 ^ Z.of_nat 2) with 100.
    unfold Qeq, Qdiv, Qmult, Qinv, inject_Z. cbn. lia. }
  assert (H1 : forall k, (inject_Z k / pow10 0 == inject_Z k)%Q).
  { intros k. unfold pow10. change (10 ^ Z.of_nat 0) with 1.
    unfold Qeq, Qdiv, Qmult, Qinv, inject_Z. cbn. lia. }
  destruct (Hc cTDS) as (t & kt & Ht & Hkt).
  destruct (Hc cpH) as (p & kp & Hp & Hkp).
  destruct (Hc cDepth) as (dp & kd & Hdp & Hkd).
  destruct (Hc cFlowInd) as (f & kf & Hf & Hkf).
  cbn [get decimals] in *.
  rewrite H1 in Hkt. rewrite H100 in Hkp, Hkd, Hkf.
  split; [exists t, kt; split; [exact Ht|exact Hkt]|].
  split; [exists p, kp; split; [exact Hp|exact Hkp]|].
  split; [exists dp, kd; split; [exact Hdp|exact Hkd]|].
  exists f, kf; split; [exact Hf|exact Hkf].
Qed.
(** *** The range filter and the failures of the query operations *)

Lemma raises_Raise {A : Type} (e : exn) : raises (@Raise A e).
Proof. exists e. reflexivity. Qed.

Lemma raises_Ok {A : Type} (a : A) : ~ raises (Ok a).
Proof. intros [e He]. discriminate. Qed.

(** X10: each of the four ranged operations ([filter_data],
    [filter_data_daily], [filter_data_weekly], [filter_data_monthly])
    raises exactly when the cleaning stage returned None or one of the two
    date strings cannot be parsed, and [filter_data_hourly] raises exactly
    when the cleaning stage returned None; otherwise they return a frame. *)
Theorem query_operations_raise_exactly_on_failed_input
  (data : api_response) (from_date to_date : string) :
  let failed :=
    preprocess_data data default_date_format = None
    \/ raises (parser_parse from_date) \/ raises (parser_parse to_date) in
  (raises (filter_data data from_date to_date) <-> failed)
  /\ (raises (filter_data_daily data from_date to_date) <-> failed)
  /\ (raises (filter_data_weekly data from_date to_date) <-> failed)
  /\ (raises (filter_data_monthly data from_date to_date) <-> failed)
  /\ (raises (filter_data_hourly data)
      <-> preprocess_data data default_date_format = None).
Proof.
  unfold filter_data, filter_data_daily, filter_data_weekly, filter_data_monthly,
    filter_data_hourly.
  destruct (preprocess_data data default_date_format) as [d|];
    destruct (parser_parse from_date) as [f|e1];
    destruct (parser_parse to_date) as [t|e2];
    cbn [mbind result_bind Py.bind subscript];
    repeat split;
    try (intros _; apply raises_Raise);
    try (intros H; apply raises_Ok in H; contradiction);
    try discriminate;
    try (intros [H|[H|H]]; try discriminate; apply raises_Ok in H; contradiction);
    try (intros _;
         first [ left; reflexivity
               | right; left; apply raises_Raise
               | right; right; apply raises_Raise ]).
Qed.

Lemma date_ge (a x : datetime) : date a <= date x <-> date a * ns_per_day <= x.
Proof.
  unfold date. change ns_per_day with 86400000000000.
  split; intros H; Z.div_mod_to_equations; lia.
Qed.

Lemma date_le (x b : datetime) : date x <= date b <-> x < (date b + 1) * ns_per_day.
Proof.
  unfold date. change ns_per_day with 86400000000000.
  split; intros H; Z.div_mod_to_equations; lia.
Qed.

Lemma in_range_spec (f t : datetime) (r : Row) :
  in_range f t r = true
  <-> date f * ns_per_day <= timestamp r < (date t + 1) * ns_per_day.
Proof.
  unfold in_range. rewrite andb_true_iff, !Z.leb_le, date_ge, date_le. tauto.
Qed.

(** X11: when the cleaning stage returned a frame and both dates parse,
    [filter_data] returns exactly the cleaned rows whose timestamp lies
    from the midnight that starts the day of [from_date] up to, and not
    including, the midnight that ends the day of [to_date]: both bounds are
    whole days, whatever the time of day of the two dates. *)
Theorem filter_data_keeps_the_rows_of_the_days
  (data : api_response) (from_date to_date : string) (f t : datetime) (d : DataFrame) :
  preprocess_data data default_date_format = Some d ->
  parser_parse from_date = Ok f ->
  parser_parse to_date = Ok t ->
  exists out,
    filter_data data from_date to_date = Ok out
    /\ forall r, In r out
                 <-> In r d
                     /\ date f * ns_per_day <= timestamp r < (date t + 1) * ns_per_day.
Proof.
  intros Hd Hf Ht. unfold filter_data. rewrite Hd, Hf, Ht.
  eexists. split; [reflexivity|]. intros r.
  rewrite filter_In, in_range_spec. tauto.
Qed.

Lemma filter_none {A : Type} (p : A -> bool) (l : list A) :
  (forall x, In x l -> p x = false) -> List.filter p l = [].
Proof.
  induction l as [|a l IH]; [reflexivity|]. intros H. cbn.
  rewrite (H a (or_introl eq_refl)). apply IH. intros x Hx. apply H. right. exact Hx.
Qed.

(** X12: when no cleaned row has its date in the range, in particular when
    [to_date] is a day before [from_date], the range filter and the daily,
    weekly and monthly aggregations all return an empty frame. *)
Theorem empty_range_gives_empty_frames
  (data : api_response) (from_date to_date : string) (f t : datetime) (d : DataFrame) :
  preprocess_data data default_date_format = Some d ->
  parser_parse from_date = Ok f ->
  parser_parse to_date = Ok t ->
  (date t < date f
   \/ forall r, In r d -> ~ (date f <= date (timestamp r) <= date t)) ->
  filter_data data from_date to_date = Ok []
  /\ filter_data_daily data from_date to_date = Ok []
  /\ filter_data_weekly data from_date to_date = Ok []
  /\ filter_data_monthly data from_date to_date = Ok [].
Proof.
  intros Hd Hf Ht Hout.
  assert (Hnone : List.filter (in_range f t) d = []).
  { apply filter_none. intros r Hr. unfold in_range.
    destruct (date f <=? date (timestamp r)) eqn:H1;
      destruct (date (timestamp r) <=? date t) eqn:H2; try reflexivity.
    apply Z.leb_le in H1, H2. destruct Hout as [Hrev|Hno]; [lia|].
    exfalso. apply (Hno r Hr). lia. }
  unfold filter_data, filter_data_daily, filter_data_weekly, filter_data_monthly.
  rewrite Hd, Hf, Ht. cbn [mbind result_bind Py.bind subscript].
  unfold monthly_rows, daily_tds_ph_rows.
  rewrite (filter_swap (in_range f t) (nonzero cpH)).
  rewrite (filter_swap (in_range f t) (nonzero cTDS)).
  rewrite Hnone. repeat split.
Qed.
(** *** More on the aggregations *)

Lemma filter_filter_andb {A : Type} (p q : A -> bool) (l : list A) :
  List.filter p (List.filter q l) = List.filter (fun x => q x && p x) l.
Proof.
  induction l as [|a l IH]; [reflexivity|]. cbn.
  destruct (q a); cbn; [destruct (p a)|]; rewrite IH; reflexivity.
Qed.

Lemma positive_is_nonzero (q : Q) : (0 <= q)%Q -> gt (Some q) 0 = ne (Some q) 0.
Proof.
  intros H. cbn. f_equal. apply eq_true_iff_eq.
  rewrite Qle_bool_iff, Qeq_bool_iff. split.
  - intros Hle. apply Qle_antisym; assumption.
  - intros Heq. rewrite Heq. apply Qle_refl.
Qed.

Lemma clean_rows_positive_filter (kept : list (datetime * RawRecord)) :
  List.filter (fun r => gt (TDS r) 0 && gt (pH r) 0) (clean kept)
  = hourly_rows (clean kept).
Proof.
  unfold hourly_rows. rewrite filter_filter_andb.
  assert (H : forall l, (forall r, In r l -> In r (clean kept)) ->
              List.filter (fun r => gt (TDS r) 0 && gt (pH r) 0) l
              = List.filter (fun r => nonzero cTDS r && nonzero cpH r) l).
  { induction l as [|r l IH]; [reflexivity|]. intros Hin. cbn [List.filter].
    destruct (clean_cell_range kept cTDS r (Hin r (or_introl eq_refl)))
      as (v & Hv & Hv0 & _).
    destruct (clean_cell_range kept cpH r (Hin r (or_introl eq_refl)))
      as (p & Hp & Hp0 & _).
    cbn [get] in Hv, Hp. unfold nonzero. cbn [get]. rewrite Hv, Hp.
    rewrite (positive_is_nonzero v Hv0), (positive_is_nonzero p Hp0).
    rewrite IH; [reflexivity|]. intros r' Hr'. apply Hin. right. exact Hr'. }
  apply H. intros r Hr. exact Hr.
Qed.

Lemma series_round_frame (c : Column) (n : nat) (d : DataFrame) :
  series c (round_frame n d) = round n (series c d).
Proof.
  unfold series, round_frame, round. rewrite !map_map. apply map_ext. intros r.
  destruct c; reflexivity.
Qed.

(** X13: on every cleaned frame the two definitions of
    [filter_data_hourly] select the same rows (TDS > 0 and pH > 0 select
    what TDS != 0 and pH != 0 select, no cleaned value being negative or
    missing); on a non-empty cleaned frame the first definition returns the
    same hourly bins as the definition in force, with the TDS and pH means
    of the latter rounded to 2 decimals. *)
Theorem hourly_definitions_select_the_same_rows
  (data : api_response) (d : DataFrame) :
  preprocess_data data default_date_format = Some d ->
  d <> [] ->
  List.filter (fun r => gt (TDS r) 0 && gt (pH r) 0) d = hourly_rows d
  /\ exists out out',
       filter_data_hourly data = Ok out
       /\ filter_data_hourly_shadowed data = Some out'
       /\ map timestamp out' = map timestamp out
       /\ series cTDS out' = round 2 (series cTDS out)
       /\ series cpH out' = round 2 (series cpH out).
Proof.
  intros Hd Hne. pose proof Hd as Hclean.
  apply preprocess_data_Some in Hclean as (recs & _ & Heq).
  assert (Hsel : List.filter (fun r => gt (TDS r) 0 && gt (pH r) 0) d = hourly_rows d)
    by (subst d; apply clean_rows_positive_filter).
  split; [exact Hsel|].
  unfold filter_data_hourly, filter_data_hourly_shadowed. rewrite Hd.
  destruct d as [|r0 d']; [contradiction|]. cbn [empty subscript mbind result_bind Py.bind try_except].
  rewrite Hsel. eexists. eexists. split; [reflexivity|]. split; [reflexivity|].
  rewrite !series_round_frame. unfold round_frame, resample_agg, series.
  rewrite !map_map. repeat split.
Qed.





(** *** Bins without rows, totals, ranges *)

Lemma valid_all_Some (s : Series) :
  (forall x, In x s -> exists q, x = Some q) -> valid s = [] -> s = [].
Proof.
  destruct s as [|x s]; [reflexivity|]. intros H.
  destruct (H x (or_introl eq_refl)) as [q ->]. discriminate.
Qed.

Lemma mean_None_iff (s : Series) :
  (forall x, In x s -> exists q, x = Some q) -> (mean s = None <-> s = []).
Proof.
  intros H. split.
  - unfold mean. destruct (valid s) as [|v vs] eqn:Hv; [|discriminate].
    intros _. apply valid_all_Some; assumption.
  - intros ->. reflexivity.
Qed.

Lemma bucket_incl (f : Freq) (i : Z) (rows : DataFrame) (r : Row) :
  In r (bucket f i rows) -> In r rows.
Proof. unfold bucket. intros H. apply filter_In in H. tauto. Qed.

Lemma series_cells_valid (kept : list (datetime * RawRecord)) (c : Column)
  (rows : DataFrame) (x : float64) :
  (forall r, In r rows -> In r (clean kept)) ->
  In x (series c rows) ->
  exists q, x = Some q /\ (0 <= q)%Q /\ (c = cpH -> (q <= 14)%Q).
Proof.
  intros Hin Hx. apply in_map_iff in Hx as (r & <- & Hr).
  apply (clean_cell_range kept c r). apply Hin. exact Hr.
Qed.

Lemma series_nil (c : Column) (rows : DataFrame) : series c rows = [] <-> rows = [].
Proof. destruct rows; cbn; split; intros H; try reflexivity; discriminate. Qed.

(** A row of sums and means over a bin of cleaned rows: its means are
    missing exactly when the bin is empty, and its sums are then 0. *)
Lemma bin_row_missing (kept : list (datetime * RawRecord)) (f : Freq) (i : Z)
  (rows : DataFrame) (row : Row) :
  (forall r, In r rows -> In r (clean kept)) ->
  reduced_by sum sum mean mean (bucket f i rows) (bucket f i rows) row ->
  (TDS row = None <-> bucket f i rows = [])
  /\ (pH row = None <-> bucket f i rows = [])
  /\ (bucket f i rows = [] -> FlowInd row = Some 0%Q /\ Depth row = Some 0%Q).
Proof.
  intros Hin (Hflow & Hdepth & Htds & Hph).
  assert (Hvalid : forall c x, In x (series c (bucket f i rows)) -> exists q, x = Some q).
  { intros c x Hx.
    destruct (series_cells_valid kept c (bucket f i rows) x) as (q & -> & _);
      [|exact Hx|exists q; reflexivity].
    intros r Hr. apply Hin. apply (bucket_incl f i). exact Hr. }
  rewrite Htds, Hph, Hflow, Hdepth.
  rewrite !mean_None_iff by (apply Hvalid). rewrite !series_nil.
  split; [tauto|]. split; [tauto|]. intros ->. split; reflexivity.
Qed.

(** X15: in the outputs of the hourly, weekly and monthly aggregations the
    TDS and pH of a row are missing exactly when no reading fell in its
    bin, and the flow and depth of such a row are 0, not missing. *)
Theorem rows_of_bins_without_readings
  (data : api_response) (from_date to_date : string) (f t : datetime) (d : DataFrame) :
  preprocess_data data default_date_format = Some d ->
  parser_parse from_date = Ok f ->
  parser_parse to_date = Ok t ->
  let empty_bin_is_marked (fr : Freq) (rows : DataFrame) (row : Row) :=
    exists i,
      timestamp row = label fr i
      /\ (TDS row = None <-> bucket fr i rows = [])
      /\ (pH row = None <-> bucket fr i rows = [])
      /\ (bucket fr i rows = [] -> FlowInd row = Some 0%Q /\ Depth row = Some 0%Q) in
  (exists out,
     filter_data_hourly data = Ok out
     /\ forall row, In row out -> empty_bin_is_marked freq_h (hourly_rows d) row)
  /\ (exists out,
        filter_data_weekly data from_date to_date = Ok out
        /\ forall row, In row out ->
             empty_bin_is_marked freq_W_Mon (List.filter (in_range f t) d) row)
  /\ (exists out,
        filter_data_monthly data from_date to_date = Ok out
        /\ forall row, In row out ->
             empty_bin_is_marked freq_ME (monthly_rows d f t) row).
Proof.
  intros Hd Hf Ht marked. pose proof Hd as Hclean.
  apply preprocess_data_Some in Hclean as (recs & _ & ->).
  assert (Hrow : forall fr rows row,
             (forall r, In r rows -> In r (clean (surviving recs default_date_format))) ->
             In row (resample_agg fr sum sum mean mean rows) -> marked fr rows row).
  { intros fr rows row Hin Hrow. apply in_resample_agg in Hrow as (i & _ & ->).
    exists i. split; [reflexivity|].
    apply (bin_row_missing (surviving recs default_date_format)); [exact Hin|].
    unfold reduced_by. cbn [FlowInd Depth TDS pH]. repeat split. }
  unfold filter_data_hourly, filter_data_weekly, filter_data_monthly.
  rewrite Hd, Hf, Ht. cbn [mbind result_bind Py.bind subscript].
  split; [|split]; (eexists; split; [reflexivity|]); intros row Hin.
  - apply (Hrow freq_h _ row); [|exact Hin]. intros r Hr.
    unfold hourly_rows in Hr. apply filter_In in Hr as [Hr _].
    apply filter_In in Hr as [Hr _]. exact Hr.
  - apply (Hrow freq_W_Mon _ row); [|exact Hin]. intros r Hr.
    apply filter_In in Hr as [Hr _]. exact Hr.
  - apply (Hrow freq_ME _ row); [|exact Hin]. intros r Hr.
    unfold monthly_rows in Hr. apply filter_In in Hr as [Hr _].
    apply filter_In in Hr as [Hr _]. apply filter_In in Hr as [Hr _]. exact Hr.
Qed.

(** *** Totals over the bins *)

Lemma total_cons (x : Q) (l : list Q) : total (x :: l) = (x + total l)%Q.
Proof. reflexivity. Qed.












(** *** Ranges of the aggregated values *)

Lemma valid_In (s : Series) (q : Q) : In q (valid s) -> In (Some q) s.
Proof.
  induction s as [|[x|] s IH]; cbn; [tauto| |auto].
  intros [->|H]; auto.
Qed.

Lemma total_bounds (a b : Q) (l : list Q) :
  (forall q, In q l -> (a <= q)%Q /\ (q <= b)%Q) ->
  (a * inject_Z (Z.of_nat (length l)) <= total l)%Q
  /\ (total l <= b * inject_Z (Z.of_nat (length l)))%Q.
Proof.
  induction l as [|q l IH]; intros H.
  - cbn. split; ring_simplify; apply Qle_refl.
  - destruct (H q (or_introl eq_refl)) as [Ha Hb].
    destruct IH as [IHa IHb]; [intros x Hx; apply H; right; exact Hx|].
    rewrite total_cons. cbn [length]. rewrite Nat2Z.inj_succ, <- Z.add_1_l, inject_Z_plus.
    split.
    + setoid_replace (a * (inject_Z 1 + inject_Z (Z.of_nat (length l))))%Q
        with (a + a * inject_Z (Z.of_nat (length l)))%Q using relation Qeq by ring.
      apply Qplus_le_compat; assumption.
    + setoid_replace (b * (inject_Z 1 + inject_Z (Z.of_nat (length l))))%Q
        with (b + b * inject_Z (Z.of_nat (length l)))%Q using relation Qeq by ring.
      apply Qplus_le_compat; assumption.
Qed.

(** The mean of values between two bounds lies between the bounds. *)
Lemma mean_bounds (a b : Q) (s : Series) (m : Q) :
  (forall x, In x s -> exists q, x = Some q /\ (a <= q)%Q /\ (q <= b)%Q) ->
  mean s = Some m -> (a <= m)%Q /\ (m <= b)%Q.
Proof.
  intros H. unfold mean. destruct (valid s) as [|v vs] eqn:Hv; [discriminate|].
  intros [= <-]. rewrite Qred_correct.
  assert (Hall : forall q, In q (v :: vs) -> (a <= q)%Q /\ (q <= b)%Q).
  { intros q Hq. rewrite <- Hv in Hq. apply valid_In in Hq.
    destruct (H _ Hq) as (q' & [= <-] & Hq'). exact Hq'. }
  destruct (total_bounds a b (v :: vs) Hall) as [Hlo Hhi].
  assert (Hpos : (0 < inject_Z (Z.of_nat (length (v :: vs))))%Q).
  { change 0%Q with (inject_Z 0). rewrite <- Zlt_Qlt. cbn [length]. lia. }
  split.
  - apply Qle_shift_div_l; assumption.
  - apply Qle_shift_div_r; assumption.
Qed.

Lemma total_nonneg (l : list Q) :
  (forall q, In q l -> (0 <= q)%Q) -> (0 <= total l)%Q.
Proof.
  induction l as [|q l IH]; intros H; [apply Qle_refl|].
  rewrite total_cons. setoid_replace 0%Q with (0 + 0)%Q using relation Qeq by ring.
  apply Qplus_le_compat; [apply H; left; reflexivity|].
  apply IH. intros x Hx. apply H. right. exact Hx.
Qed.

Lemma valid_nonneg (s : Series) :
  (forall x, In x s -> exists q, x = Some q /\ (0 <= q)%Q) ->
  forall q, In q (valid s) -> (0 <= q)%Q.
Proof.
  intros H q Hq. apply valid_In in Hq. destruct (H _ Hq) as (q' & [= <-] & Hq').
  exact Hq'.
Qed.

(** The sum of values that are not negative is not negative. *)
Lemma sum_nonneg (s : Series) (m : Q) :
  (forall x, In x s -> exists q, x = Some q /\ (0 <= q)%Q) ->
  sum s = Some m -> (0 <= m)%Q.
Proof.
  intros H. unfold sum. intros [= <-]. rewrite Qred_correct.
  apply total_nonneg. apply valid_nonneg. exact H.
Qed.

(** So is their mean. *)
Lemma mean_nonneg (s : Series) (m : Q) :
  (forall x, In x s -> exists q, x = Some q /\ (0 <= q)%Q) ->
  mean s = Some m -> (0 <= m)%Q.
Proof.
  intros H. unfold mean. destruct (valid s) as [|v vs] eqn:Hv; [discriminate|].
  intros [= <-]. rewrite Qred_correct. apply Qle_shift_div_l.
  - change 0%Q with (inject_Z 0). rewrite <- Zlt_Qlt. cbn [length]. lia.
  - assert (Ht : (0 <= total (v :: vs))%Q)
      by (apply total_nonneg; rewrite <- Hv; apply valid_nonneg; exact H).
    rewrite Qmult_0_l. exact Ht.
Qed.

Lemma reduced_row_in_range (kept : list (datetime * RawRecord))
  (rFlowInd rDepth : Series -> float64) (flow_rows tds_rows : DataFrame) (row : Row) :
  (rFlowInd = sum \/ rFlowInd = mean) ->
  (rDepth = sum \/ rDepth = mean) ->
  (forall r, In r flow_rows -> In r (clean kept)) ->
  (forall r, In r tds_rows -> In r (clean kept)) ->
  reduced_by rFlowInd rDepth mean mean flow_rows tds_rows row ->
  (forall p, pH row = Some p -> (0 <= p)%Q /\ (p <= 14)%Q)
  /\ (forall v, TDS row = Some v -> (0 <= v)%Q)
  /\ (forall v, FlowInd row = Some v -> (0 <= v)%Q)
  /\ (forall v, Depth row = Some v -> (0 <= v)%Q).
Proof.
  intros HrF HrD Hflow Htds (Hf & Hd & Ht & Hp).
  assert (Hnonneg : forall c rows, (forall r, In r rows -> In r (clean kept)) ->
             forall x, In x (series c rows) -> exists q, x = Some q /\ (0 <= q)%Q).
  { intros c rows Hin x Hx.
    destruct (series_cells_valid kept c rows x Hin Hx) as (q & -> & Hq & _).
    exists q. split; [reflexivity|exact Hq]. }
  assert (Hmean : forall c rows v, (forall r, In r rows -> In r (clean kept)) ->
             mean (series c rows) = Some v -> (0 <= v)%Q).
  { intros c rows v Hin Hm. apply (mean_nonneg _ v (Hnonneg c rows Hin) Hm). }
  split; [|split; [|split]].
  - intros p Hrow. rewrite Hp in Hrow.
    apply (mean_bounds 0 14 _ p) in Hrow; [exact Hrow|].
    intros x Hx. destruct (series_cells_valid kept cpH tds_rows x Htds Hx)
      as (q & -> & Hq0 & Hq14).
    exists q. split; [reflexivity|]. split; [exact Hq0|apply Hq14; reflexivity].
  - intros v Hrow. rewrite Ht in Hrow. apply (Hmean cTDS tds_rows v Htds Hrow).
  - intros v Hrow. rewrite Hf in Hrow. destruct HrF as [-> | ->].
    + apply (sum_nonneg _ v (Hnonneg cFlowInd flow_rows Hflow) Hrow).
    + apply (Hmean cFlowInd flow_rows v Hflow Hrow).
  - intros v Hrow. rewrite Hd in Hrow. destruct HrD as [-> | ->].
    + apply (sum_nonneg _ v (Hnonneg cDepth flow_rows Hflow) Hrow).
    + apply (Hmean cDepth flow_rows v Hflow Hrow).
Qed.

(** X17: aggregation keeps the ranges of the cleaned values: in every row
    of the output of the hourly, daily, weekly and monthly aggregations a
    pH that is not missing lies in [0, 14], and a TDS, a flow indicator and
    a depth that are not missing are not negative. *)
Theorem aggregated_values_stay_in_range
  (data : api_response) (from_date to_date : string) (f t : datetime) (d : DataFrame) :
  preprocess_data data default_date_format = Some d ->
  parser_parse from_date = Ok f ->
  parser_parse to_date = Ok t ->
  let in_its_range (row : Row) :=
    (forall p, pH row = Some p -> (0 <= p)%Q /\ (p <= 14)%Q)
    /\ (forall v, TDS row = Some v -> (0 <= v)%Q)
    /\ (forall v, FlowInd row = Some v -> (0 <= v)%Q)
    /\ (forall v, Depth row = Some v -> (0 <= v)%Q) in
  (exists out, filter_data_hourly data = Ok out
               /\ forall row, In row out -> in_its_range row)
  /\ (exists out, filter_data_daily data from_date to_date = Ok out
                  /\ forall row, In row out -> in_its_range row)
  /\ (exists out, filter_data_weekly data from_date to_date = Ok out
                  /\ forall row, In row out -> in_its_range row)
  /\ (exists out, filter_data_monthly data from_date to_date = Ok out
                  /\ forall row, In row out -> in_its_range row).
Proof.
  intros Hd Hf Ht ranged. pose proof Hd as Hclean.
  apply preprocess_data_Some in Hclean as (recs & _ & Heq).
  set (kept := surviving recs default_date_format) in *.
  assert (Hfilter : forall p rows r, (forall x, In x rows -> In x (clean kept)) ->
             In r (List.filter p rows) -> In r (clean kept)).
  { intros p rows r Hin Hr. apply filter_In in Hr as [Hr _]. apply Hin. exact Hr. }
  assert (Hd_in : forall x, In x d -> In x (clean kept)) by (rewrite Heq; intros x Hx; exact Hx).
  assert (Hagg : forall fr rows row,
             (forall r, In r rows -> In r (clean kept)) ->
             In row (resample_agg fr sum sum mean mean rows) -> ranged row).
  { intros fr rows row Hin Hrow. apply in_resample_agg in Hrow as (i & _ & ->).
    assert (Hb : forall r, In r (bucket fr i rows) -> In r (clean kept))
      by (intros r Hr; apply Hin; apply (bucket_incl fr i); exact Hr).
    apply (reduced_row_in_range kept sum sum (bucket fr i rows) (bucket fr i rows) _
             (or_introl eq_refl) (or_introl eq_refl) Hb Hb).
    unfold reduced_by. cbn [FlowInd Depth TDS pH]. repeat split. }
  split; [|split; [|split]].
  - unfold filter_data_hourly. rewrite Hd. eexists. split; [reflexivity|].
    intros row Hrow. apply (Hagg freq_h (hourly_rows d) row); [|exact Hrow].
    intros r Hr. unfold hourly_rows in Hr.
    apply (Hfilter _ _ r) in Hr; [exact Hr|]. intros x Hx.
    apply (Hfilter _ _ x) in Hx; [exact Hx|exact Hd_in].
  - eexists. split; [apply (filter_data_daily_Ok _ _ _ f t d); assumption|].
    intros row Hrow. apply in_daily_output in Hrow as (i & _ & ->).
    assert (H1 : forall r, In r (bucket freq_D i (List.filter (in_range f t) d)) ->
                 In r (clean kept)).
    { intros r Hr. apply bucket_incl in Hr.
      apply (Hfilter _ _ r) in Hr; [exact Hr|exact Hd_in]. }
    assert (H2 : forall r, In r (bucket freq_D i (daily_tds_ph_rows d f t)) ->
                 In r (clean kept)).
    { intros r Hr. apply bucket_incl in Hr. apply daily_rows_incl in Hr.
      apply (Hfilter _ _ r) in Hr; [exact Hr|exact Hd_in]. }
    apply (reduced_row_in_range kept mean mean _ _ _
             (or_intror eq_refl) (or_intror eq_refl) H1 H2).
    unfold reduced_by. cbn [FlowInd Depth TDS pH]. repeat split.
  - unfold filter_data_weekly. rewrite Hd, Hf, Ht. eexists. split; [reflexivity|].
    intros row Hrow. apply (Hagg freq_W_Mon (List.filter (in_range f t) d) row); [|exact Hrow].
    intros r Hr. apply (Hfilter _ _ r) in Hr; [exact Hr|exact Hd_in].
  - unfold filter_data_monthly. rewrite Hd, Hf, Ht. eexists. split; [reflexivity|].
    intros row Hrow. apply (Hagg freq_ME (monthly_rows d f t) row); [|exact Hrow].
    intros r Hr. unfold monthly_rows in Hr.
    apply (Hfilter _ _ r) in Hr; [exact Hr|]. intros x Hx.
    apply (Hfilter _ _ x) in Hx; [exact Hx|]. intros y Hy.
    apply (Hfilter _ _ y) in Hy; [exact Hy|exact Hd_in].
Qed.

(** *** Where the bins lie *)

Lemma in_bucket_own (f : Freq) (rows : DataFrame) (r : Row) :
  In r rows -> In r (bucket f (bin f (timestamp r)) rows).
Proof. intros H. unfold bucket. apply filter_In. split; [exact H|apply Z.eqb_refl]. Qed.

Lemma spans_own (f : Freq) (rows : DataFrame) (r : Row) :
  In r rows -> spans f rows (bin f (timestamp r)).
Proof. intros H. exists r, r. repeat split; try assumption; lia. Qed.

(** X18: the weekly bins end on Mondays.  Every row of the weekly output is
    labelled with the midnight of a Monday (day 0 being a Thursday, the
    Mondays are the days L with L + 3 divisible by 7) that lies between the
    day of [from_date] and six days after the day of [to_date]; and every
    cleaned row of the range is counted in the row labelled with the first
    Monday on or after its own day. *)
Theorem weekly_bins_end_on_mondays
  (data : api_response) (from_date to_date : string) (f t : datetime) (d : DataFrame) :
  preprocess_data data default_date_format = Some d ->
  parser_parse from_date = Ok f ->
  parser_parse to_date = Ok t ->
  exists out,
    filter_data_weekly data from_date to_date = Ok out
    /\ (forall row, In row out ->
          exists L, timestamp row = L * ns_per_day
                    /\ (L + 3) mod 7 = 0
                    /\ date f <= L <= date t + 6)
    /\ (forall r, In r d -> in_range f t r = true ->
          exists row L,
            In row out
            /\ timestamp row = L * ns_per_day
            /\ (L + 3) mod 7 = 0
            /\ date (timestamp r) <= L <= date (timestamp r) + 6
            /\ In r (bucket freq_W_Mon (bin freq_W_Mon (timestamp r))
                       (List.filter (in_range f t) d))
            /\ reduced_by sum sum mean mean
                 (bucket freq_W_Mon (bin freq_W_Mon (timestamp r))
                    (List.filter (in_range f t) d))
                 (bucket freq_W_Mon (bin freq_W_Mon (timestamp r))
                    (List.filter (in_range f t) d)) row).
Proof.
  intros Hd Hf Ht. unfold filter_data_weekly. rewrite Hd, Hf, Ht.
  eexists. split; [reflexivity|]. split.
  - intros row Hrow. apply in_resample_agg in Hrow as (i & Hspan & ->).
    destruct Hspan as (r1 & r2 & H1 & H2 & Hlo & Hhi).
    apply filter_In in H1 as [_ H1]. apply filter_In in H2 as [_ H2].
    unfold in_range in H1, H2. apply andb_true_iff in H1 as [H1 _].
    apply andb_true_iff in H2 as [_ H2]. apply Z.leb_le in H1, H2.
    exists (7 * i - 3). cbn [timestamp label freq_W_Mon bin] in *.
    split; [reflexivity|]. split; Z.div_mod_to_equations; lia.
  - intros r Hr Hrange.
    assert (Hin : In r (List.filter (in_range f t) d)) by (apply filter_In; auto).
    eexists. exists (7 * bin freq_W_Mon (timestamp r) - 3).
    split; [apply in_resample_agg; exists (bin freq_W_Mon (timestamp r));
            split; [apply spans_own; exact Hin|reflexivity]|].
    cbn [timestamp label freq_W_Mon bin].
    split; [reflexivity|]. split; [Z.div_mod_to_equations; lia|].
    split; [Z.div_mod_to_equations; lia|].
    split; [apply (in_bucket_own freq_W_Mon); exact Hin|].
    unfold reduced_by. cbn [FlowInd Depth TDS pH]. repeat split.
Qed.

(** X19: every row of the daily output is labelled with the midnight of a
    day of the requested range, the days of [from_date] and [to_date]
    included. *)
Theorem daily_rows_lie_in_the_range
  (data : api_response) (from_date to_date : string) (f t : datetime) (d : DataFrame) :
  preprocess_data data default_date_format = Some d ->
  parser_parse from_date = Ok f ->
  parser_parse to_date = Ok t ->
  exists out,
    filter_data_daily data from_date to_date = Ok out
    /\ forall row, In row out ->
         exists day, timestamp row = day * ns_per_day /\ date f <= day <= date t.
Proof.
  intros Hd Hf Ht. eexists.
  split; [apply (filter_data_daily_Ok _ _ _ f t d); assumption|].
  intros row Hrow. apply in_daily_output in Hrow as (i & Hspan & ->).
  destruct Hspan as (r1 & r2 & H1 & H2 & Hlo & Hhi).
  apply daily_rows_incl in H1, H2.
  apply filter_In in H1 as [_ H1]. apply filter_In in H2 as [_ H2].
  unfold in_range in H1, H2. apply andb_true_iff in H1 as [H1 _].
  apply andb_true_iff in H2 as [_ H2]. apply Z.leb_le in H1, H2.
  exists i. cbn [timestamp label freq_D bin] in *. split; [reflexivity|]. lia.
Qed.

(** X20: every cleaned reading with nonzero TDS and pH is counted in the
    row of the hourly output labelled with the start of its own hour: the
    label is at most the timestamp of the reading and less than one hour
    before it. *)
Theorem hourly_reading_is_counted_in_its_hour
  (data : api_response) (d : DataFrame) (r : Row) :
  preprocess_data data default_date_format = Some d ->
  In r d -> nonzero cTDS r = true -> nonzero cpH r = true ->
  exists out row,
    filter_data_hourly data = Ok out
    /\ In row out
    /\ timestamp row <= timestamp r < timestamp row + ns_per_hour
    /\ In r (bucket freq_h (bin freq_h (timestamp r)) (hourly_rows d))
    /\ reduced_by sum sum mean mean
         (bucket freq_h (bin freq_h (timestamp r)) (hourly_rows d))
         (bucket freq_h (bin freq_h (timestamp r)) (hourly_rows d)) row.
Proof.
  intros Hd Hr Htds Hph. unfold filter_data_hourly. rewrite Hd.
  assert (Hin : In r (hourly_rows d)).
  { unfold hourly_rows. apply filter_In. split; [|exact Hph].
    apply filter_In. split; [exact Hr|exact Htds]. }
  eexists. eexists. split; [reflexivity|].
  split; [apply in_resample_agg; exists (bin freq_h (timestamp r));
          split; [apply spans_own; exact Hin|reflexivity]|].
  cbn [timestamp label freq_h bin].
  split; [change ns_per_hour with 3600000000000; Z.div_mod_to_equations; lia|].
  split; [apply (in_bucket_own freq_h); exact Hin|].
  unfold reduced_by. cbn [FlowInd Depth TDS pH]. repeat split.
Qed.

(** *** The update loop and the graphs *)

Lemma zrange_nonempty (lo hi : Z) : lo <= hi -> zrange lo hi <> [].
Proof.
  intros H Hnil. assert (Hin : In lo (zrange lo hi)) by (apply in_zrange; lia).
  rewrite Hnil in Hin. destruct Hin.
Qed.

(** A resampling has no row exactly when the frame has none. *)
Lemma resample_agg_nil (f : Freq) (a b c e : Series -> float64) (rows : DataFrame) :
  resample_agg f a b c e rows = [] <-> rows = [].
Proof.
  split; [|intros ->; reflexivity].
  destruct rows as [|r rows]; [reflexivity|]. intros H. exfalso.
  assert (Hrow : In (mkRow (label f (bin f (timestamp r)))
                       (a (series cFlowInd (bucket f (bin f (timestamp r)) (r :: rows))))
                       (c (series cTDS (bucket f (bin f (timestamp r)) (r :: rows))))
                       (e (series cpH (bucket f (bin f (timestamp r)) (r :: rows))))
                       (b (series cDepth (bucket f (bin f (timestamp r)) (r :: rows)))))
                   (resample_agg f a b c e (r :: rows))).
  { apply in_resample_agg. exists (bin f (timestamp r)). split; [|reflexivity].
    apply spans_own. left. reflexivity. }
  rewrite H in Hrow. destruct Hrow.
Qed.


Lemma fetch_latest_data_nonempty (raw_data data : api_response) (out : DataFrame) :
  fetch_latest_data raw_data data = Some out -> empty out = false.
Proof.
  unfold fetch_latest_data, filter_data_hourly.
  destruct raw_data as [[|r rs]|]; cbn [try_except]; try discriminate.
  destruct (preprocess_data data default_date_format) as [d|];
    cbn [subscript mbind result_bind Py.bind try_except]; [|discriminate].
  unfold verify_data_quality.
  destruct (resample_agg freq_h sum sum mean mean (hourly_rows d)) as [|row rows];
    cbn [empty fst try_except]; [discriminate|].
  intros [= <-]. reflexivity.
Qed.

Lemma later_false (a b : option datetime) : later a b = false <-> ~ strictly_later a b.
Proof.
  rewrite <- later_spec. destruct (later a b); split; intros H; congruence.
Qed.

(** The outcomes of a turn of the loop, with all the fields of the state. *)
Lemma update_cycle_has_three_outcomes_aux
  (now : datetime) (raw_data data : api_response) (st : State) :
  (fetch_latest_data raw_data data = None
   /\ update_cycle now raw_data data st
      = mkState (df st) (last_update_time st) (Some "Failed to fetch new data"))
  \/ (exists new_df,
        fetch_latest_data raw_data data = Some new_df
        /\ (df st = [] \/ strictly_later (timestamp_max new_df) (timestamp_max (df st)))
        /\ update_cycle now raw_data data st = mkState new_df (Some now) None)
  \/ (exists new_df,
        fetch_latest_data raw_data data = Some new_df
        /\ df st <> []
        /\ ~ strictly_later (timestamp_max new_df) (timestamp_max (df st))
        /\ update_cycle now raw_data data st = st).
Proof.
  unfold update_cycle.
  destruct (fetch_latest_data raw_data data) as [new_df|] eqn:Hfetch; [|left; auto].
  rewrite (fetch_latest_data_nonempty _ _ _ Hfetch). cbn [negb].
  right. destruct (df st) as [|r rest] eqn:Hdf; cbn [empty orb].
  - left. exists new_df. auto.
  - destruct (later (timestamp_max new_df) (timestamp_max (r :: rest))) eqn:Hlater.
    + left. exists new_df. apply later_spec in Hlater. auto.
    + right. exists new_df. apply later_false in Hlater.
      split; [reflexivity|]. split; [discriminate|]. split; [exact Hlater|reflexivity].
Qed.

(** X22: the three outcomes of a turn of the update loop.  When no frame is
    fetched, the shared frame and the time of its last update stay and the
    error "Failed to fetch new data" is recorded.  When a frame is fetched
    and the shared frame is empty or older, the frame is stored, the time
    of the turn becomes the time of the last update and the error is
    cleared.  When a frame is fetched that is not newer than a non-empty
    shared frame, nothing changes at all: an error recorded by an earlier
    turn stays. *)
Theorem update_cycle_has_three_outcomes
  (now : datetime) (raw_data data : api_response) (st : State) :
  (fetch_latest_data raw_data data = None
   /\ update_cycle now raw_data data st
      = mkState (df st) (last_update_time st) (Some "Failed to fetch new data"))
  \/ (exists new_df,
        fetch_latest_data raw_data data = Some new_df
        /\ (df st = [] \/ strictly_later (timestamp_max new_df) (timestamp_max (df st)))
        /\ update_cycle now raw_data data st = mkState new_df (Some now) None)
  \/ (exists new_df,
        fetch_latest_data raw_data data = Some new_df
        /\ df st <> []
        /\ ~ strictly_later (timestamp_max new_df) (timestamp_max (df st))
        /\ update_cycle now raw_data data st = st).
Proof. apply update_cycle_has_three_outcomes_aux. Qed.

(** X23: started from the initial state, after any number of turns the
    loop is in one of two states: no frame and no update time yet, or a
    non-empty shared frame that is the frame fetched in one of the turns,
    with the time of that turn as the time of the last update. *)
Theorem update_data_keeps_a_fetched_frame
  (turns : list (datetime * api_response * api_response)) :
  let st := update_data turns initial_state in
  (df st = [] /\ last_update_time st = None)
  \/ (df st <> []
      /\ exists now raw_data data,
           In (now, raw_data, data) turns
           /\ last_update_time st = Some now
           /\ fetch_latest_data raw_data data = Some (df st)).
Proof.
  assert (Hgen : forall turns st,
             ((df st = [] /\ last_update_time st = None)
              \/ (df st <> []
                  /\ exists now raw_data data,
                       last_update_time st = Some now
                       /\ fetch_latest_data raw_data data = Some (df st))) ->
             let st' := update_data turns st in
             (df st' = [] /\ last_update_time st' = None)
             \/ (df st' <> []
                 /\ exists now raw_data data,
                      (In (now, raw_data, data) turns
                       \/ (df st' = df st /\ last_update_time st' = last_update_time st))
                      /\ last_update_time st' = Some now
                      /\ fetch_latest_data raw_data data = Some (df st'))).
  { clear turns. induction turns as [|[[now raw_data] data] rest IH]; intros st Hst.
    - cbn. destruct Hst as [Hst|(Hne & n & r & dt & Hn & Hf)]; [left; exact Hst|].
      right. split; [exact Hne|]. exists n, r, dt. auto.
    - cbn [update_data].
      assert (Hstep :
        let s1 := update_cycle now raw_data data st in
        (df s1 = df st /\ last_update_time s1 = last_update_time st)
        \/ (df s1 <> [] /\ last_update_time s1 = Some now
            /\ fetch_latest_data raw_data data = Some (df s1))).
      { destruct (update_cycle_has_three_outcomes_aux now raw_data data st)
          as [[_ ->]|[(new_df & Hf & _ & ->)|(new_df & _ & _ & _ & ->)]]; cbn.
        - left. auto.
        - right. split; [|auto].
          apply fetch_latest_data_nonempty in Hf. destruct new_df; [discriminate|discriminate].
        - left. auto. }
      cbn zeta in Hstep.
      set (s1 := update_cycle now raw_data data st) in *.
      assert (Hs1 : (df s1 = [] /\ last_update_time s1 = None)
                    \/ (df s1 <> []
                        /\ exists n r dt, last_update_time s1 = Some n
                                          /\ fetch_latest_data r dt = Some (df s1))).
      { destruct Hstep as [[Hdf Hlut]|(Hne & Hlut & Hf)].
        - rewrite Hdf, Hlut. exact Hst.
        - right. split; [exact Hne|]. exists now, raw_data, data. auto. }
      destruct (IH s1 Hs1) as [Hempty|(Hne & n & r & dt & Hwhere & Hlut & Hf)];
        [left; exact Hempty|].
      right. split; [exact Hne|].
      destruct Hwhere as [Hin|[Hdf' Hlut']].
      + exists n, r, dt. split; [left; right; exact Hin|]. auto.
      + destruct Hstep as [[Hdf Hlut1]|(Hne1 & Hlut1 & Hf1)].
        * exists n, r, dt. split; [right; split; congruence|]. auto.
        * exists now, raw_data, data. split; [left; left; reflexivity|].
          split; [congruence|]. rewrite Hdf'. exact Hf1. }
  intros st. destruct (Hgen turns initial_state) as [H|(Hne & n & r & dt & Hwhere & Hlut & Hf)].
  - left. auto.
  - left. exact H.
  - destruct Hwhere as [Hin|[Hdf _]].
    + right. split; [exact Hne|]. exists n, r, dt. auto.
    + exfalso. apply Hne. rewrite Hdf. reflexivity.
Qed.


#[local] Transparent clean.

End Pipeline.

(** ** The pipeline on concrete records

    The library calls are those of [strict]; dates are written
    year-month-day. *)

(** C1 (the code departs from the claim): on three readings within one hour
    with TDS 0, 10, 20, flow 1, 2, 4 and depth 1, 1, 2, the definition of
    [filter_data_hourly] in force drops the reading with TDS 0 and gives the
    mean 15 for TDS, but the sums 6 and 3 for flow and depth, where the
    claim has the means 3 and 1.5; the first definition of the function,
    which the later one replaces, gives those means. *)
Theorem hourly_sums_flow_and_depth :
  filter_data_hourly to_datetime_strict strict.str_to_float sample_hour
  = Ok [mkRow 1704103200000000000 (Some 6%Q) (Some 15%Q) (Some 7%Q) (Some 3%Q)]
  /\ filter_data_hourly_shadowed to_datetime_strict strict.str_to_float sample_hour
     = Some [mkRow 1704103200000000000 (Some 3%Q) (Some 15%Q) (Some 7%Q) (Some (3 # 2)%Q)].
Proof. split; vm_compute; reflexivity. Qed.

(** The API returns nothing: the cleaning stage returns None and the range
    filter raises. *)
Lemma filter_data_raises_after_failed_cleaning_witness :
  preprocess_data to_datetime_strict strict.str_to_float None default_date_format = None
  /\ raises (filter_data to_datetime_strict strict.str_to_float parser_parse_strict
               None "2024-01-01" "2024-01-31")
  /\ (forall f t,
        parser_parse_strict "2024-01-01" = Ok f ->
        parser_parse_strict "2024-01-31" = Ok t ->
        filter_data to_datetime_strict strict.str_to_float parser_parse_strict
          None "2024-01-01" "2024-01-31" = Raise TypeError).
Proof.
  split; [reflexivity|].
  apply (filter_data_raises_after_failed_cleaning
           to_datetime_strict strict.str_to_float parser_parse_strict
           None "2024-01-01" "2024-01-31").
  reflexivity.
Defined.

(** C3 (the code departs from the claim): on two readings of one week with
    TDS 0 and 10, [filter_data_weekly] keeps the reading with TDS 0 and
    gives the mean 5 for TDS, where the claim has 10. *)
Theorem weekly_mean_counts_zero_rows :
  filter_data_weekly to_datetime_strict strict.str_to_float parser_parse_strict
    sample_week "2024-01-01" "2024-01-31"
  = Ok [mkRow 1704672000000000000 (Some 3%Q) (Some 5%Q) (Some 7%Q) (Some 2%Q)].
Proof. vm_compute. reflexivity. Qed.

(** C4, as stated, fails: the TDS column of [gaps_records] is NaN, NaN, 5,
    NaN, 8, and neither its null repair nor the cleaned column is
    5, 5, 5, 8, 8. *)
Lemma null_repair_is_not_5_5_5_8_8 :
  raw_series to_datetime_strict strict.str_to_float cTDS gaps_records default_date_format
  = [None; None; Some 5%Q; None; Some 8%Q]
  /\ null_repair [None; None; Some 5%Q; None; Some 8%Q]
     <> [Some 5%Q; Some 5%Q; Some 5%Q; Some 8%Q; Some 8%Q]
  /\ exists d,
       preprocess_data to_datetime_strict strict.str_to_float
         (Some gaps_records) default_date_format = Some d
       /\ series cTDS d <> [Some 5%Q; Some 5%Q; Some 5%Q; Some 8%Q; Some 8%Q].
Proof.
  split; [vm_compute; reflexivity|]. split; [vm_compute; discriminate|].
  eexists. split; [vm_compute; reflexivity|]. vm_compute. discriminate.
Qed.

(** The TDS column of [gaps_records] is repaired to 5, 5, 5, 5, 8. *)
Lemma null_repair_fills_forward_first_witness :
  exists d,
    preprocess_data to_datetime_strict strict.str_to_float
      (Some gaps_records) default_date_format = Some d
    /\ raw_series to_datetime_strict strict.str_to_float cTDS gaps_records
         default_date_format
       = [None; None; Some 5%Q; None; Some 8%Q]
    /\ null_repair (raw_series to_datetime_strict strict.str_to_float cTDS
                      gaps_records default_date_format)
       = [Some 5%Q; Some 5%Q; Some 5%Q; Some 5%Q; Some 8%Q]
    /\ series cTDS d = [Some 5%Q; Some 5%Q; Some 5%Q; Some 5%Q; Some 8%Q].
Proof.
  eexists. split; [vm_compute; reflexivity|]. split; [vm_compute; reflexivity|].
  apply (null_repair_fills_forward_first to_datetime_strict strict.str_to_float
           gaps_records default_date_format);
    vm_compute; reflexivity.
Defined.

(** In the cleaned [gaps_records] the pH read as 20 and the pH read as -5
    are 7, the depth read as -3 is 0, and every value is in its range. *)
Lemma cleaned_values_in_range_witness :
  exists d,
    preprocess_data to_datetime_strict strict.str_to_float
      (Some gaps_records) default_date_format = Some d
    /\ series cpH d !! 3%nat = Some (Some 7%Q)
    /\ series cpH d !! 4%nat = Some (Some 7%Q)
    /\ series cDepth d !! 4%nat = Some (Some 0%Q)
    /\ forall row, In row d ->
         (exists p, pH row = Some p /\ 0 <= p /\ p <= 14)%Q
         /\ (exists v, TDS row = Some v /\ 0 <= v)%Q
         /\ (exists v, Depth row = Some v /\ 0 <= v)%Q
         /\ (exists v, FlowInd row = Some v /\ 0 <= v)%Q.
Proof.
  eexists. split; [vm_compute; reflexivity|].
  destruct (cleaned_values_in_range to_datetime_strict strict.str_to_float
              gaps_records default_date_format _ eq_refl)
    as (Hrange & Hph & Hneg).
  split; [apply (Hph 3%nat 20%Q); [vm_compute; reflexivity|right; reflexivity]|].
  split; [apply (Hph 4%nat (-5)%Q); [vm_compute; reflexivity|left; reflexivity]|].
  split; [apply (Hneg cDepth 4%nat (-3)%Q);
          [discriminate|vm_compute; reflexivity|reflexivity]|].
  exact Hrange.
Defined.

(** Of [bad_timestamp_records] the two records with a timestamp in the
    default format remain, with the timestamps read. *)
Lemma cleaned_rows_have_parsed_timestamps_witness :
  exists d,
    preprocess_data to_datetime_strict strict.str_to_float
      (Some bad_timestamp_records) default_date_format = Some d
    /\ map timestamp d = [1704106800000000000; 1704110400000000000]
    /\ exists recs,
         Some bad_timestamp_records = Some recs
         /\ map timestamp d
            = omap (fun r => to_datetime_strict default_date_format
                               (cell "timestamp" r)) recs
         /\ forall row, In row d ->
              exists r, In r recs
                        /\ to_datetime_strict default_date_format (cell "timestamp" r)
                           = Some (timestamp row).
Proof.
  eexists. split; [vm_compute; reflexivity|]. split; [vm_compute; reflexivity|].
  apply (cleaned_rows_have_parsed_timestamps to_datetime_strict strict.str_to_float
           (Some bad_timestamp_records) default_date_format).
  vm_compute. reflexivity.
Defined.

(** C6, as stated, fails: 2 January 2024 has a reading in the range, hence
    flow data, and no reading with nonzero TDS and pH, and yet the daily
    output has a row for it, with TDS and pH missing, because 1 and 3
    January have nonzero readings. *)
Lemma daily_row_on_a_day_without_nonzero_data :
  exists d,
    preprocess_data to_datetime_strict strict.str_to_float
      sample_days default_date_format = Some d
    /\ bucket freq_D 19724
         (List.filter (in_range 1704067200000000000 1704240000000000000) d)
       = [mkRow 1704182400000000000 (Some 2%Q) (Some 0%Q) (Some 7%Q) (Some 1%Q)]
    /\ bucket freq_D 19724
         (daily_tds_ph_rows d 1704067200000000000 1704240000000000000)
       = []
    /\ label freq_D 19724 = 1704153600000000000
    /\ filter_data_daily to_datetime_strict strict.str_to_float parser_parse_strict
         sample_days "2024-01-01" "2024-01-03"
       = Ok [mkRow 1704067200000000000 (Some 1%Q) (Some (21 # 2)%Q) (Some 7%Q)
               (Some (3 # 200)%Q);
             mkRow 1704153600000000000 (Some 2%Q) None None (Some 1%Q);
             mkRow 1704240000000000000 (Some 3%Q) (Some 31%Q) (Some 7%Q) (Some 1%Q)].
Proof.
  eexists. split; [vm_compute; reflexivity|].
  repeat split; vm_compute; reflexivity.
Qed.

(** On [sample_days] the daily output has a row for 2 January 2024, a day
    between two days with nonzero readings, and its TDS and pH are missing. *)
Lemma daily_output_spans_the_nonzero_days_witness :
  exists d,
    preprocess_data to_datetime_strict strict.str_to_float
      sample_days default_date_format = Some d
    /\ parser_parse_strict "2024-01-01" = Ok 1704067200000000000
    /\ parser_parse_strict "2024-01-03" = Ok 1704240000000000000
    /\ exists out,
         filter_data_daily to_datetime_strict strict.str_to_float parser_parse_strict
           sample_days "2024-01-01" "2024-01-03" = Ok out
         /\ (exists row, In row out /\ timestamp row = label freq_D 19724)
         /\ forall row,
              In row out -> timestamp row = label freq_D 19724 ->
              TDS row = None /\ pH row = None.
Proof.
  eexists. split; [vm_compute; reflexivity|].
  split; [vm_compute; reflexivity|]. split; [vm_compute; reflexivity|].
  destruct (daily_output_spans_the_nonzero_days
              to_datetime_strict strict.str_to_float parser_parse_strict
              sample_days "2024-01-01" "2024-01-03"
              1704067200000000000 1704240000000000000 _ eq_refl eq_refl eq_refl)
    as (out & Hout & _ & Hdays & Hrows).
  exists out. split; [exact Hout|]. split.
  - apply Hdays.
    exists (mkRow 1704096000000000000 (Some 1%Q) (Some 10%Q) (Some 7%Q) (Some (1 # 100)%Q)),
           (mkRow 1704268800000000000 (Some 3%Q) (Some 31%Q) (Some 7%Q) (Some 1%Q)).
    vm_compute. intuition congruence.
  - intros row Hrow Hts. apply (Hrows 19724 row Hrow Hts). vm_compute. reflexivity.
Defined.

(** C8, as stated, fails: the monthly mean of the TDS values 10, 11 and 31 is
    52/3 and the daily mean of the depths 0.01 and 0.02 is 0.015; the
    outputs hold these values, which differ from their roundings to 2
    decimals. *)
Lemma aggregates_are_not_rounded :
  filter_data_monthly to_datetime_strict strict.str_to_float parser_parse_strict
    sample_days "2024-01-01" "2024-01-31"
  = Ok [mkRow 1706659200000000000 (Some 5%Q) (Some (52 # 3)%Q) (Some 7%Q)
          (Some (103 # 100)%Q)]
  /\ ~ (round_Q 2 (52 # 3) == 52 # 3)%Q
  /\ (exists out,
        filter_data_daily to_datetime_strict strict.str_to_float parser_parse_strict
          sample_days "2024-01-01" "2024-01-03" = Ok out
        /\ In (mkRow 1704067200000000000 (Some 1%Q) (Some (21 # 2)%Q) (Some 7%Q)
                 (Some (3 # 200)%Q)) out
        /\ round_frame 2 out <> out)
  /\ ~ (round_Q 2 (3 # 200) == 3 # 200)%Q.
Proof.
  split; [vm_compute; reflexivity|]. split; [vm_compute; discriminate|].
  split; [|vm_compute; discriminate].
  eexists. split; [vm_compute; reflexivity|].
  split; [left; reflexivity|vm_compute; discriminate].
Qed.

(** On [sample_days] every row of the monthly output holds the results of
    the reducers over its month. *)
Lemma aggregates_are_reducer_results_witness :
  exists d,
    preprocess_data to_datetime_strict strict.str_to_float
      sample_days default_date_format = Some d
    /\ parser_parse_strict "2024-01-01" = Ok 1704067200000000000
    /\ parser_parse_strict "2024-01-31" = Ok 1706659200000000000
    /\ exists out,
         filter_data_monthly to_datetime_strict strict.str_to_float parser_parse_strict
           sample_days "2024-01-01" "2024-01-31" = Ok out
         /\ forall row, In row out ->
              exists i,
                timestamp row = label freq_ME i
                /\ reduced_by sum sum mean mean
                     (bucket freq_ME i
                        (monthly_rows d 1704067200000000000 1706659200000000000))
                     (bucket freq_ME i
                        (monthly_rows d 1704067200000000000 1706659200000000000)) row.
Proof.
  eexists. split; [vm_compute; reflexivity|].
  split; [vm_compute; reflexivity|]. split; [vm_compute; reflexivity|].
  apply (aggregates_are_reducer_results
           to_datetime_strict strict.str_to_float parser_parse_strict
           sample_days "2024-01-01" "2024-01-31"
           1704067200000000000 1706659200000000000 _ eq_refl eq_refl eq_refl).
Defined.

(** ** The API client *)

Lemma falsy_false (token : option string) :
  get_data.falsy token = false -> exists bearer, token = Some bearer /\ bearer <> "".
Proof.
  destruct token as [s|]; cbn; [|discriminate].
  intros H. exists s. split; [reflexivity|]. intros ->. discriminate.
Qed.

Lemma generate_token_counts (server : get_data.Server) (net : get_data.Net) :
  snd (get_data.generate_token server net)
  = get_data.mkNet (S (get_data.posts net)) (get_data.gets net) (get_data.slept net).
Proof.
  unfold get_data.generate_token.
  destruct (get_data.post_get_token server (get_data.posts net)) as [code tok|];
    [destruct (code =? 200)|]; reflexivity.
Qed.

(** A token is handed out only for a response with status 200. *)
Lemma generate_token_Some (server : get_data.Server) (net : get_data.Net) (bearer : string) :
  fst (get_data.generate_token server net) = Some bearer ->
  get_data.post_get_token server (get_data.posts net)
  = get_data.TokenResponse 200 (Some bearer).
Proof.
  unfold get_data.generate_token.
  destruct (get_data.post_get_token server (get_data.posts net)) as [code tok|];
    [destruct (code =? 200) eqn:Hcode|]; cbn; try discriminate.
  apply Z.eqb_eq in Hcode. intros ->. subst code. reflexivity.
Qed.

Lemma attempts_bounds (server : get_data.Server) (todo : list nat) (net : get_data.Net) :
  let net' := snd (get_data.attempts server todo net) in
  (get_data.posts net <= get_data.posts net' <= get_data.posts net + length todo)%nat
  /\ (get_data.gets net' - get_data.gets net
      <= get_data.posts net' - get_data.posts net)%nat
  /\ (get_data.gets net <= get_data.gets net')%nat
  /\ get_data.slept net <= get_data.slept net'
     <= get_data.slept net + 5 * Z.of_nat (get_data.gets net' - get_data.gets net).
Proof.
  revert net. induction todo as [|attempt rest IH]; intros net; cbn [get_data.attempts].
  - cbn. lia.
  - pose proof (generate_token_counts server net) as Hnet.
    destruct (get_data.generate_token server net) as [token net1]. cbn [snd] in Hnet.
    subst net1. destruct token as [bearer|]; [|cbn; lia].
    destruct (get_data.falsy (Some bearer)); [cbn; lia|].
    cbn [get_data.posts get_data.gets get_data.slept].
    destruct (get_data.get_nallampatti_data server (get_data.gets net) bearer)
      as [code body|].
    + destruct (code =? 200); [cbn; lia|].
      destruct (code =? 401); [|cbn; lia].
      specialize (IH (get_data.sleep get_data.retry_delay
                        (get_data.mkNet (S (get_data.posts net)) (S (get_data.gets net))
                           (get_data.slept net)))).
      cbn in IH |- *. unfold get_data.retry_delay in *. lia.
    + destruct (attempt <? get_data.max_retries - 1)%nat; [|cbn; lia].
      specialize (IH (get_data.sleep get_data.retry_delay
                        (get_data.mkNet (S (get_data.posts net)) (S (get_data.gets net))
                           (get_data.slept net)))).
      cbn in IH |- *. unfold get_data.retry_delay in *. lia.
Qed.

Lemma attempts_first_post (server : get_data.Server) (attempt : nat) (rest : list nat)
  (net : get_data.Net) :
  (S (get_data.posts net)
   <= get_data.posts (snd (get_data.attempts server (attempt :: rest) net)))%nat.
Proof.
  cbn [get_data.attempts].
  pose proof (generate_token_counts server net) as Hnet.
  destruct (get_data.generate_token server net) as [token net1]. cbn [snd] in Hnet.
  subst net1. destruct token as [bearer|]; [|cbn; lia].
  destruct (get_data.falsy (Some bearer)); [cbn; lia|].
  cbn [get_data.posts get_data.gets get_data.slept].
  pose proof (attempts_bounds server rest
                (get_data.sleep get_data.retry_delay
                   (get_data.mkNet (S (get_data.posts net)) (S (get_data.gets net))
                      (get_data.slept net)))) as Hrest.
  cbn in Hrest.
  destruct (get_data.get_nallampatti_data server (get_data.gets net) bearer)
    as [code body|].
  - destruct (code =? 200); [cbn; lia|]. destruct (code =? 401); [|cbn; lia]. lia.
  - destruct (attempt <? get_data.max_retries - 1)%nat; [|cbn; lia]. lia.
Qed.

(** X1: whatever the server answers, one call of [fetch_data_from_api]
    makes at least 1 and at most 3 token requests and at most 3 data
    requests, never more data requests than token requests, and sleeps 5
    seconds at most once per data request, 15 seconds at most in all. *)
Theorem fetch_data_from_api_is_bounded (server : get_data.Server) :
  let net := snd (get_data.fetch_data_from_api server get_data.start) in
  (1 <= get_data.posts net <= 3)%nat
  /\ (get_data.gets net <= get_data.posts net)%nat
  /\ 0 <= get_data.slept net <= 5 * Z.of_nat (get_data.gets net)
  /\ get_data.slept net <= 15.
Proof.
  pose proof (attempts_bounds server (seq 0 get_data.max_retries) get_data.start) as H.
  pose proof (attempts_first_post server 0 (seq 1 2) get_data.start) as Hone.
  unfold get_data.fetch_data_from_api. cbn zeta in H |- *.
  change (0%nat :: seq 1 2) with (seq 0 get_data.max_retries) in Hone.
  set (net := snd (get_data.attempts server (seq 0 get_data.max_retries) get_data.start)) in *.
  cbn [get_data.start get_data.posts get_data.gets get_data.slept length] in H, Hone.
  rewrite length_seq in H. unfold get_data.max_retries in H. lia.
Qed.

(** The step of the loop at an attempt with a usable token. *)
Lemma attempts_with_token (server : get_data.Server) (attempt : nat) (rest : list nat)
  (net : get_data.Net) (bearer : string) :
  get_data.post_get_token server (get_data.posts net)
  = get_data.TokenResponse 200 (Some bearer) ->
  bearer <> "" ->
  get_data.attempts server (attempt :: rest) net
  = let net' := get_data.mkNet (S (get_data.posts net)) (S (get_data.gets net))
                  (get_data.slept net) in
    match get_data.get_nallampatti_data server (get_data.gets net) bearer with
    | get_data.DataResponse status_code body =>
        if status_code =? 200 then (body, net')
        else if status_code =? 401 then
          get_data.attempts server rest (get_data.sleep get_data.retry_delay net')
        else (None, net')
    | get_data.DataFailure =>
        if (attempt <? get_data.max_retries - 1)%nat
        then get_data.attempts server rest (get_data.sleep get_data.retry_delay net')
        else (None, net')
    end.
Proof.
  intros Hpost Hne. cbn [get_data.attempts]. unfold get_data.generate_token.
  rewrite Hpost. cbn [Z.eqb Pos.eqb get_data.falsy].
  destruct (String.eqb bearer "") eqn:Heq; [apply String.eqb_eq in Heq; contradiction|].
  reflexivity.
Qed.

Lemma attempts_Some (server : get_data.Server) (n a : nat) (net : get_data.Net)
  (records : list RawRecord) :
  get_data.posts net = a -> get_data.gets net = a ->
  fst (get_data.attempts server (seq a n) net) = Some records ->
  exists k bearer,
    (a <= k < a + n)%nat
    /\ get_data.post_get_token server k = get_data.TokenResponse 200 (Some bearer)
    /\ bearer <> ""
    /\ get_data.get_nallampatti_data server k bearer
       = get_data.DataResponse 200 (Some records)
    /\ forall j, (a <= j < k)%nat -> get_data.retried server j.
Proof.
  revert a net. induction n as [|n IH]; intros a net Hposts Hgets; [discriminate|].
  cbn [seq get_data.attempts].
  destruct (get_data.generate_token server net) as [token net1] eqn:Htok.
  pose proof (generate_token_counts server net) as Hnet. rewrite Htok in Hnet.
  cbn [snd] in Hnet. subst net1.
  destruct token as [bearer|]; [|discriminate].
  pose proof (generate_token_Some server net bearer) as Hpost.
  rewrite Htok in Hpost. specialize (Hpost eq_refl). rewrite Hposts in Hpost.
  destruct (get_data.falsy (Some bearer)) eqn:Hfalsy; [discriminate|].
  apply falsy_false in Hfalsy as (b & [= <-] & Hne).
  cbn [get_data.posts get_data.gets get_data.slept]. rewrite Hgets.
  assert (Hrec : forall reply_is_retried : get_data.retried server a,
             fst (get_data.attempts server (seq (S a) n)
                    (get_data.sleep get_data.retry_delay
                       (get_data.mkNet (S (get_data.posts net)) (S a)
                          (get_data.slept net)))) = Some records ->
             exists k bearer0,
               (a <= k < a + S n)%nat
               /\ get_data.post_get_token server k
                  = get_data.TokenResponse 200 (Some bearer0)
               /\ bearer0 <> ""
               /\ get_data.get_nallampatti_data server k bearer0
                  = get_data.DataResponse 200 (Some records)
               /\ forall j, (a <= j < k)%nat -> get_data.retried server j).
  { intros Hretried H. apply IH in H as (k & b & Hk & Hp & Hb & Hg & Hbefore);
      [|cbn; lia|reflexivity].
    exists k, b. split; [lia|]. repeat split; try assumption.
    intros j Hj. destruct (Nat.eq_dec j a) as [->|Hja]; [assumption|].
    apply Hbefore. lia. }
  destruct (get_data.get_nallampatti_data server a bearer) as [code body|] eqn:Hget.
  - destruct (code =? 200) eqn:H200.
    + apply Z.eqb_eq in H200. subst code. cbn [fst]. intros ->.
      exists a, bearer. split; [lia|]. repeat split; try assumption. intros j Hj. lia.
    + destruct (code =? 401) eqn:H401; [|discriminate].
      apply Z.eqb_eq in H401. subst code. apply Hrec.
      exists bearer. eauto 6.
  - destruct (a <? get_data.max_retries - 1)%nat; [|discriminate].
    apply Hrec. exists bearer. eauto 6.
Qed.

(** X2: when [fetch_data_from_api] returns records, they are the body of a
    response with status 200 to the data request of one of the three
    attempts, made with a non-empty token that a token response with status
    200 carried; every attempt before it had a usable token and ended in a
    401 or in a failed request. *)
Theorem fetch_data_from_api_returns_a_200_body
  (server : get_data.Server) (records : list RawRecord) :
  fst (get_data.fetch_data_from_api server get_data.start) = Some records ->
  exists k bearer,
    (k < 3)%nat
    /\ get_data.post_get_token server k = get_data.TokenResponse 200 (Some bearer)
    /\ bearer <> ""
    /\ get_data.get_nallampatti_data server k bearer
       = get_data.DataResponse 200 (Some records)
    /\ forall j, (j < k)%nat -> get_data.retried server j.
Proof.
  intros H. apply (attempts_Some server 3 0 get_data.start) in H
    as (k & bearer & Hk & Hp & Hb & Hg & Hbefore); try reflexivity.
  exists k, bearer. split; [lia|]. repeat split; try assumption.
  intros j Hj. apply Hbefore. lia.
Qed.

(** X3: an attempt is repeated only after a 401 or a failed data request
    made with a usable token.  When the first attempt is not of that kind
    (no token, or any other status), the call makes one token request, at
    most one data request, does not sleep, and returns the body exactly
    when the data request was answered with status 200. *)
Theorem fetch_data_from_api_stops_without_retry (server : get_data.Server) :
  ~ get_data.retried server 0 ->
  let out := get_data.fetch_data_from_api server get_data.start in
  get_data.posts (snd out) = 1%nat
  /\ (get_data.gets (snd out) <= 1)%nat
  /\ get_data.slept (snd out) = 0
  /\ forall records,
       fst out = Some records <->
       exists bearer,
         get_data.post_get_token server 0 = get_data.TokenResponse 200 (Some bearer)
         /\ bearer <> ""
         /\ get_data.get_nallampatti_data server 0 bearer
            = get_data.DataResponse 200 (Some records).
Proof.
  intros Hnot. unfold get_data.fetch_data_from_api.
  cbn [seq get_data.max_retries].
  destruct (get_data.post_get_token server 0) as [code token|] eqn:Hpost.
  2:{ cbn [get_data.attempts]. unfold get_data.generate_token. cbn [get_data.start get_data.posts].
      rewrite Hpost. cbn. repeat split; try lia; try discriminate.
      intros (b & Hb & _). discriminate. }
  destruct (code =? 200) eqn:H200.
  2:{ cbn [get_data.attempts]. unfold get_data.generate_token. cbn [get_data.start get_data.posts].
      rewrite Hpost, H200. cbn. repeat split; try lia; try discriminate.
      intros (b & [= -> _] & _). discriminate. }
  apply Z.eqb_eq in H200. subst code.
  destruct token as [bearer|].
  2:{ cbn [get_data.attempts]. unfold get_data.generate_token. cbn [get_data.start get_data.posts].
      rewrite Hpost. cbn. repeat split; try lia; try discriminate.
      intros (b & [=] & _). }
  destruct (String.eqb bearer "") eqn:Hempty.
  { cbn [get_data.attempts]. unfold get_data.generate_token. cbn [get_data.start get_data.posts].
    rewrite Hpost. cbn [Z.eqb Pos.eqb get_data.falsy]. rewrite Hempty. cbn.
    repeat split; try lia; try discriminate.
    intros (b & [= <-] & Hb & _). apply String.eqb_eq in Hempty. contradiction. }
  assert (Hne : bearer <> "") by (intros ->; discriminate).
  rewrite (attempts_with_token server 0 _ get_data.start bearer Hpost Hne).
  cbn [get_data.start get_data.posts get_data.gets get_data.slept]. cbn zeta.
  destruct (get_data.get_nallampatti_data server 0 bearer) as [code body|] eqn:Hget.
  - destruct (code =? 200) eqn:H200.
    + apply Z.eqb_eq in H200. subst code. cbn. repeat split; try lia.
      * intros ->. eauto.
      * intros (b & [= <-] & _ & Hb). rewrite Hget in Hb. congruence.
    + destruct (code =? 401) eqn:H401.
      * apply Z.eqb_eq in H401. subst code. exfalso. apply Hnot.
        exists bearer. eauto 6.
      * cbn. repeat split; try lia; try discriminate.
        intros (b & [= <-] & _ & Hb). rewrite Hget in Hb.
        injection Hb as Hcode _. subst code. discriminate.
  - exfalso. apply Hnot. exists bearer. eauto 6.
Qed.

(** X4: when each of the three attempts gets a usable token and ends in a
    401 or in a failed data request, the call returns nothing after 3 token
    requests and 3 data requests; it has slept 15 seconds when the last
    attempt ended in a 401 (the loop sleeps even though no attempt is left)
    and 10 seconds when it ended in a failed request. *)
Theorem fetch_data_from_api_gives_up_after_three (server : get_data.Server) :
  (forall k, (k < 3)%nat -> get_data.retried server k) ->
  let out := get_data.fetch_data_from_api server get_data.start in
  fst out = None
  /\ get_data.posts (snd out) = 3%nat
  /\ get_data.gets (snd out) = 3%nat
  /\ exists bearer,
       get_data.post_get_token server 2 = get_data.TokenResponse 200 (Some bearer)
       /\ get_data.slept (snd out)
          = match get_data.get_nallampatti_data server 2 bearer with
            | get_data.DataFailure => 10
            | get_data.DataResponse _ _ => 15
            end.
Proof.
  intros H.
  destruct (H 0%nat ltac:(lia)) as (b0 & Hp0 & Hb0 & Hg0).
  destruct (H 1%nat ltac:(lia)) as (b1 & Hp1 & Hb1 & Hg1).
  destruct (H 2%nat ltac:(lia)) as (b2 & Hp2 & Hb2 & Hg2).
  unfold get_data.fetch_data_from_api. cbn [seq get_data.max_retries].
  rewrite (attempts_with_token server 0 _ get_data.start b0 Hp0 Hb0).
  cbn [get_data.start get_data.posts get_data.gets get_data.slept]. cbn zeta.
  assert (Hstep0 :
    match get_data.get_nallampatti_data server 0 b0 with
    | get_data.DataResponse status_code body =>
        if status_code =? 200 then (body, get_data.mkNet 1 1 0)
        else if status_code =? 401
             then get_data.attempts server [1%nat; 2%nat]
                    (get_data.sleep get_data.retry_delay (get_data.mkNet 1 1 0))
             else (None, get_data.mkNet 1 1 0)
    | get_data.DataFailure =>
        if (0 <? get_data.max_retries - 1)%nat
        then get_data.attempts server [1%nat; 2%nat]
               (get_data.sleep get_data.retry_delay (get_data.mkNet 1 1 0))
        else (None, get_data.mkNet 1 1 0)
    end
    = get_data.attempts server [1%nat; 2%nat] (get_data.mkNet 1 1 5)).
  { destruct Hg0 as [->|[body ->]]; reflexivity. }
  rewrite Hstep0. clear Hstep0.
  rewrite (attempts_with_token server 1 _ (get_data.mkNet 1 1 5) b1 Hp1 Hb1).
  cbn [get_data.posts get_data.gets get_data.slept]. cbn zeta.
  assert (Hstep1 :
    match get_data.get_nallampatti_data server 1 b1 with
    | get_data.DataResponse status_code body =>
        if status_code =? 200 then (body, get_data.mkNet 2 2 5)
        else if status_code =? 401
             then get_data.attempts server [2%nat]
                    (get_data.sleep get_data.retry_delay (get_data.mkNet 2 2 5))
             else (None, get_data.mkNet 2 2 5)
    | get_data.DataFailure =>
        if (1 <? get_data.max_retries - 1)%nat
        then get_data.attempts server [2%nat]
               (get_data.sleep get_data.retry_delay (get_data.mkNet 2 2 5))
        else (None, get_data.mkNet 2 2 5)
    end
    = get_data.attempts server [2%nat] (get_data.mkNet 2 2 10)).
  { destruct Hg1 as [->|[body ->]]; reflexivity. }
  rewrite Hstep1. clear Hstep1.
  rewrite (attempts_with_token server 2 _ (get_data.mkNet 2 2 10) b2 Hp2 Hb2).
  cbn [get_data.posts get_data.gets get_data.slept]. cbn zeta.
  destruct Hg2 as [Hg2|[body Hg2]]; rewrite Hg2; cbn;
    (split; [reflexivity|]); (split; [reflexivity|]); (split; [reflexivity|]);
    exists b2; rewrite Hg2; auto.
Qed.


(** ** The added properties on concrete inputs *)

(** The second attempt of [server_second_try] brings the list of the server. *)
Lemma fetch_data_from_api_returns_a_200_body_witness :
  fst (get_data.fetch_data_from_api server_second_try get_data.start) = Some [∅]
  /\ exists k bearer,
       (k < 3)%nat
       /\ get_data.post_get_token server_second_try k
          = get_data.TokenResponse 200 (Some bearer)
       /\ bearer <> ""
       /\ get_data.get_nallampatti_data server_second_try k bearer
          = get_data.DataResponse 200 (Some [∅])
       /\ forall j, (j < k)%nat -> get_data.retried server_second_try j.
Proof.
  split; [reflexivity|].
  apply (fetch_data_from_api_returns_a_200_body server_second_try).
  reflexivity.
Defined.

(** With [server_down] the call stops after the token request. *)
Lemma fetch_data_from_api_stops_without_retry_witness :
  ~ get_data.retried server_down 0
  /\ get_data.posts (snd (get_data.fetch_data_from_api server_down get_data.start)) = 1%nat
  /\ get_data.slept (snd (get_data.fetch_data_from_api server_down get_data.start)) = 0.
Proof.
  assert (H : ~ get_data.retried server_down 0)
    by (intros (bearer & Hpost & _); discriminate).
  split; [exact H|].
  destruct (fetch_data_from_api_stops_without_retry server_down H) as (Hp & _ & Hs & _).
  split; [exact Hp|exact Hs].
Defined.

(** With [server_unauthorized] the call gives up after 15 seconds of sleep. *)
Lemma fetch_data_from_api_gives_up_after_three_witness :
  (forall k, (k < 3)%nat -> get_data.retried server_unauthorized k)
  /\ fst (get_data.fetch_data_from_api server_unauthorized get_data.start) = None
  /\ get_data.gets (snd (get_data.fetch_data_from_api server_unauthorized get_data.start))
     = 3%nat
  /\ get_data.slept (snd (get_data.fetch_data_from_api server_unauthorized get_data.start))
     = 15.
Proof.
  assert (H : forall k, (k < 3)%nat -> get_data.retried server_unauthorized k).
  { intros k _. exists "t". split; [reflexivity|]. split; [discriminate|].
    right. exists None. reflexivity. }
  split; [exact H|].
  destruct (fetch_data_from_api_gives_up_after_three server_unauthorized H)
    as (Hnone & _ & Hgets & _).
  split; [exact Hnone|]. split; [exact Hgets|]. vm_compute. reflexivity.
Defined.

(** The pH column of [no_ph_records] is cleaned to 0. *)
Lemma column_without_values_is_cleaned_to_zero_witness :
  exists d,
    preprocess_data to_datetime_strict strict.str_to_float
      (Some no_ph_records) default_date_format = Some d
    /\ (forall x, In x (raw_series to_datetime_strict strict.str_to_float cpH
                          no_ph_records default_date_format) -> x = None)
    /\ series cpH d = [Some 0%Q; Some 0%Q]
    /\ forall v, In v (series cpH d) -> v = Some 0%Q.
Proof.
  eexists. split; [vm_compute; reflexivity|].
  assert (H : forall x, In x (raw_series to_datetime_strict strict.str_to_float cpH
                                no_ph_records default_date_format) -> x = None).
  { vm_compute. intros x [<-|[<-|[]]]; reflexivity. }
  split; [exact H|]. split; [vm_compute; reflexivity|].
  apply (column_without_values_is_cleaned_to_zero to_datetime_strict strict.str_to_float
           no_ph_records default_date_format _ cpH); [vm_compute; reflexivity|exact H].
Defined.

(** In [gaps_records] the fourth TDS, missing, takes the 5 of the third. *)
Lemma missing_value_takes_the_last_value_before_witness :
  exists d,
    preprocess_data to_datetime_strict strict.str_to_float
      (Some gaps_records) default_date_format = Some d
    /\ raw_series to_datetime_strict strict.str_to_float cTDS gaps_records
         default_date_format !! 2%nat = Some (Some 5%Q)
    /\ series cTDS d !! 3%nat = Some (Some 5%Q).
Proof.
  eexists. split; [vm_compute; reflexivity|]. split; [vm_compute; reflexivity|].
  apply (missing_value_takes_the_last_value_before to_datetime_strict strict.str_to_float
           gaps_records default_date_format _ cTDS 2 3 5%Q).
  - vm_compute. reflexivity.
  - vm_compute. reflexivity.
  - lia.
  - vm_compute. lia.
  - intros k Hk1 Hk2. assert (k = 3%nat) as -> by lia. vm_compute. reflexivity.
Defined.

(** In [gaps_records] the first TDS, missing, takes the 5 of the third. *)
Lemma leading_missing_values_take_the_first_value_witness :
  exists d,
    preprocess_data to_datetime_strict strict.str_to_float
      (Some gaps_records) default_date_format = Some d
    /\ raw_series to_datetime_strict strict.str_to_float cTDS gaps_records
         default_date_format !! 2%nat = Some (Some 5%Q)
    /\ series cTDS d !! 0%nat = Some (Some 5%Q).
Proof.
  eexists. split; [vm_compute; reflexivity|]. split; [vm_compute; reflexivity|].
  apply (leading_missing_values_take_the_first_value to_datetime_strict
           strict.str_to_float gaps_records default_date_format _ cTDS 2 0 5%Q).
  - vm_compute. reflexivity.
  - intros k Hk. destruct k as [|[|k]]; [vm_compute; reflexivity..|lia].
  - vm_compute. reflexivity.
  - lia.
Defined.

(** The depth 0.01 of the first row of the cleaned [sample_days] is one
    hundredth. *)
Lemma cleaned_values_have_their_decimals_witness :
  exists d row,
    preprocess_data to_datetime_strict strict.str_to_float
      sample_days default_date_format = Some d
    /\ In row d
    /\ Depth row = Some (1 # 100)%Q
    /\ (exists v k, TDS row = Some v /\ (v == inject_Z k)%Q)
    /\ (exists v k, Depth row = Some v /\ (v == k # 100)%Q).
Proof.
  eexists. eexists. split; [vm_compute; reflexivity|].
  split; [left; reflexivity|]. split; [reflexivity|].
  edestruct (cleaned_values_have_their_decimals to_datetime_strict strict.str_to_float
               sample_days default_date_format) as (Htds & _ & Hdepth & _);
    [vm_compute; reflexivity|left; reflexivity|].
  split; [exact Htds|exact Hdepth].
Defined.

(** On [sample_days], from 1 to 2 January 2024, the range filter keeps the
    three readings of the two days. *)
Lemma filter_data_keeps_the_rows_of_the_days_witness :
  exists d,
    preprocess_data to_datetime_strict strict.str_to_float
      sample_days default_date_format = Some d
    /\ parser_parse_strict "2024-01-01" = Ok 1704067200000000000
    /\ parser_parse_strict "2024-01-02" = Ok 1704153600000000000
    /\ exists out,
         filter_data to_datetime_strict strict.str_to_float parser_parse_strict
           sample_days "2024-01-01" "2024-01-02" = Ok out
         /\ length out = 3%nat
         /\ forall r, In r out
                      <-> In r d
                          /\ date 1704067200000000000 * ns_per_day <= timestamp r
                             < (date 1704153600000000000 + 1) * ns_per_day.
Proof.
  eexists. split; [vm_compute; reflexivity|].
  split; [vm_compute; reflexivity|]. split; [vm_compute; reflexivity|].
  edestruct (filter_data_keeps_the_rows_of_the_days
               to_datetime_strict strict.str_to_float parser_parse_strict
               sample_days "2024-01-01" "2024-01-02"
               1704067200000000000 1704153600000000000)
    as (out & Hout & Hrows); [vm_compute; reflexivity..|].
  exists out. split; [exact Hout|]. split; [|exact Hrows].
  assert (Hlen : option_map (@length Row)
                   (match filter_data to_datetime_strict strict.str_to_float
                            parser_parse_strict sample_days "2024-01-01" "2024-01-02"
                    with Ok o => Some o | Raise _ => None end) = Some 3%nat)
    by (vm_compute; reflexivity).
  rewrite Hout in Hlen. cbn in Hlen. injection Hlen as Hlen. exact Hlen.
Defined.

(** On [sample_days] with the two dates exchanged every ranged operation
    returns an empty frame. *)
Lemma empty_range_gives_empty_frames_witness :
  exists d,
    preprocess_data to_datetime_strict strict.str_to_float
      sample_days default_date_format = Some d
    /\ parser_parse_strict "2024-01-03" = Ok 1704240000000000000
    /\ parser_parse_strict "2024-01-01" = Ok 1704067200000000000
    /\ date 1704067200000000000 < date 1704240000000000000
    /\ filter_data to_datetime_strict strict.str_to_float parser_parse_strict
         sample_days "2024-01-03" "2024-01-01" = Ok []
    /\ filter_data_daily to_datetime_strict strict.str_to_float parser_parse_strict
         sample_days "2024-01-03" "2024-01-01" = Ok []
    /\ filter_data_weekly to_datetime_strict strict.str_to_float parser_parse_strict
         sample_days "2024-01-03" "2024-01-01" = Ok []
    /\ filter_data_monthly to_datetime_strict strict.str_to_float parser_parse_strict
         sample_days "2024-01-03" "2024-01-01" = Ok [].
Proof.
  eexists. split; [vm_compute; reflexivity|].
  split; [vm_compute; reflexivity|]. split; [vm_compute; reflexivity|].
  split; [vm_compute; reflexivity|].
  eapply (empty_range_gives_empty_frames
            to_datetime_strict strict.str_to_float parser_parse_strict
            sample_days "2024-01-03" "2024-01-01"
            1704240000000000000 1704067200000000000);
    [vm_compute; reflexivity..|].
  left. vm_compute. reflexivity.
Defined.

(** On [sample_hour] both definitions of the hourly aggregation give a
    frame, with the same timestamps. *)
Lemma hourly_definitions_select_the_same_rows_witness :
  exists d out out',
    preprocess_data to_datetime_strict strict.str_to_float
      sample_hour default_date_format = Some d
    /\ d <> []
    /\ filter_data_hourly to_datetime_strict strict.str_to_float sample_hour = Ok out
    /\ filter_data_hourly_shadowed to_datetime_strict strict.str_to_float sample_hour
       = Some out'
    /\ map timestamp out' = map timestamp out
    /\ series cTDS out' = round 2 (series cTDS out)
    /\ series cpH out' = round 2 (series cpH out).
Proof.
  edestruct (hourly_definitions_select_the_same_rows
               to_datetime_strict strict.str_to_float sample_hour)
    as (_ & out & out' & H); [vm_compute; reflexivity|discriminate|].
  eexists. exists out, out'.
  split; [vm_compute; reflexivity|]. split; [discriminate|]. exact H.
Defined.


(** On [sample_days], from 1 to 3 January 2024, every hourly row is the row
    of a bin and has no TDS exactly when the bin has no reading. *)
Lemma rows_of_bins_without_readings_witness :
  exists d,
    preprocess_data to_datetime_strict strict.str_to_float
      sample_days default_date_format = Some d
    /\ parser_parse_strict "2024-01-01" = Ok 1704067200000000000
    /\ parser_parse_strict "2024-01-03" = Ok 1704240000000000000
    /\ exists out,
         filter_data_hourly to_datetime_strict strict.str_to_float sample_days = Ok out
         /\ forall row, In row out ->
              exists i,
                timestamp row = label freq_h i
                /\ (TDS row = None <-> bucket freq_h i (hourly_rows d) = []).
Proof.
  edestruct (rows_of_bins_without_readings
               to_datetime_strict strict.str_to_float parser_parse_strict
               sample_days "2024-01-01" "2024-01-03"
               1704067200000000000 1704240000000000000)
    as ((out & Hout & Hrows) & _); [vm_compute; reflexivity..|].
  eexists. split; [vm_compute; reflexivity|].
  split; [vm_compute; reflexivity|]. split; [vm_compute; reflexivity|].
  exists out. split; [exact Hout|].
  intros row Hin. destruct (Hrows row Hin) as (i & Hl & Htds & _).
  exists i. split; [exact Hl|exact Htds].
Defined.


(** On [sample_days], from 1 to 3 January 2024, the pH of every daily row is
    between 0 and 14. *)
Lemma aggregated_values_stay_in_range_witness :
  exists d,
    preprocess_data to_datetime_strict strict.str_to_float
      sample_days default_date_format = Some d
    /\ parser_parse_strict "2024-01-01" = Ok 1704067200000000000
    /\ parser_parse_strict "2024-01-03" = Ok 1704240000000000000
    /\ exists out,
         filter_data_daily to_datetime_strict strict.str_to_float parser_parse_strict
           sample_days "2024-01-01" "2024-01-03" = Ok out
         /\ forall row p, In row out -> pH row = Some p -> (0 <= p)%Q /\ (p <= 14)%Q.
Proof.
  edestruct (aggregated_values_stay_in_range
               to_datetime_strict strict.str_to_float parser_parse_strict
               sample_days "2024-01-01" "2024-01-03"
               1704067200000000000 1704240000000000000)
    as (_ & (out & Hout & Hrows) & _); [vm_compute; reflexivity..|].
  eexists. split; [vm_compute; reflexivity|].
  split; [vm_compute; reflexivity|]. split; [vm_compute; reflexivity|].
  exists out. split; [exact Hout|].
  intros row p Hin. exact (proj1 (Hrows row Hin) p).
Defined.

(** On [sample_days], from 1 to 3 January 2024, every weekly row is at the
    midnight that begins a Monday. *)
Lemma weekly_bins_end_on_mondays_witness :
  exists d,
    preprocess_data to_datetime_strict strict.str_to_float
      sample_days default_date_format = Some d
    /\ parser_parse_strict "2024-01-01" = Ok 1704067200000000000
    /\ parser_parse_strict "2024-01-03" = Ok 1704240000000000000
    /\ exists out,
         filter_data_weekly to_datetime_strict strict.str_to_float parser_parse_strict
           sample_days "2024-01-01" "2024-01-03" = Ok out
         /\ forall row, In row out ->
              exists L, timestamp row = L * ns_per_day
                        /\ (L + 3) mod 7 = 0
                        /\ date 1704067200000000000 <= L
                           <= date 1704240000000000000 + 6.
Proof.
  edestruct (weekly_bins_end_on_mondays
               to_datetime_strict strict.str_to_float parser_parse_strict
               sample_days "2024-01-01" "2024-01-03"
               1704067200000000000 1704240000000000000)
    as (out & Hout & Hrows & _); [vm_compute; reflexivity..|].
  eexists. split; [vm_compute; reflexivity|].
  split; [vm_compute; reflexivity|]. split; [vm_compute; reflexivity|].
  exists out. split; [exact Hout|exact Hrows].
Defined.

(** On [sample_days], from 1 to 3 January 2024, every daily row is at the
    midnight of one of the three days. *)
Lemma daily_rows_lie_in_the_range_witness :
  exists d,
    preprocess_data to_datetime_strict strict.str_to_float
      sample_days default_date_format = Some d
    /\ parser_parse_strict "2024-01-01" = Ok 1704067200000000000
    /\ parser_parse_strict "2024-01-03" = Ok 1704240000000000000
    /\ exists out,
         filter_data_daily to_datetime_strict strict.str_to_float parser_parse_strict
           sample_days "2024-01-01" "2024-01-03" = Ok out
         /\ forall row, In row out ->
              exists day, timestamp row = day * ns_per_day
                          /\ date 1704067200000000000 <= day
                             <= date 1704240000000000000.
Proof.
  edestruct (daily_rows_lie_in_the_range
               to_datetime_strict strict.str_to_float parser_parse_strict
               sample_days "2024-01-01" "2024-01-03"
               1704067200000000000 1704240000000000000)
    as (out & Hout & Hrows); [vm_compute; reflexivity..|].
  eexists. split; [vm_compute; reflexivity|].
  split; [vm_compute; reflexivity|]. split; [vm_compute; reflexivity|].
  exists out. split; [exact Hout|exact Hrows].
Defined.

(** The second reading of [sample_hour], at 10:15 with TDS 10, is counted in
    the hourly row of 10:00. *)
Lemma hourly_reading_is_counted_in_its_hour_witness :
  exists d r,
    preprocess_data to_datetime_strict strict.str_to_float
      sample_hour default_date_format = Some d
    /\ d !! 1%nat = Some r
    /\ nonzero cTDS r = true
    /\ nonzero cpH r = true
    /\ exists out row,
         filter_data_hourly to_datetime_strict strict.str_to_float sample_hour = Ok out
         /\ In row out
         /\ timestamp row <= timestamp r < timestamp row + ns_per_hour.
Proof.
  eexists. eexists. split; [vm_compute; reflexivity|].
  split; [reflexivity|]. split; [vm_compute; reflexivity|].
  split; [vm_compute; reflexivity|].
  edestruct (hourly_reading_is_counted_in_its_hour
               to_datetime_strict strict.str_to_float sample_hour)
    as (out & row & Hout & Hin & Hts & _);
    [vm_compute; reflexivity|right; left; reflexivity|vm_compute; reflexivity..|].
  exists out, row. split; [exact Hout|]. split; [exact Hin|exact Hts].
Defined.
